(** * pcweb/pages/docs/component.py: the component documentation parser

    A shallow embedding of [Prop], [Source] (with [__init__], [get_docs],
    [get_props], [_get_props], [get_comment]), [TYPE_COLORS] and [prop_docs],
    together with the properties of the comment-to-property scan.

    Text is modelled by [string]; a character of type [ascii] stands for the
    Python code point of the same number (U+0000..U+00FF), and the character
    classes below are Python's on that range. *)

From Stdlib Require Import ZArith Ascii NArith.
From stdpp Require Import gmap strings list fin_maps.

(** ** Python [str] primitives *)

Module PyStr.

Definition code_point (c : ascii) : N := N_of_ascii c.

Definition in_range (lo hi : N) (c : ascii) : bool :=
  ((lo <=? code_point c) && (code_point c <=? hi))%N.

(** [str.isspace] on one character: what [str.strip()] removes. *)
Definition is_space (c : ascii) : bool :=
  in_range 9 13 c || in_range 28 32 c || in_range 133 133 c
  || in_range 160 160 c.

(** The line boundaries of [str.splitlines]. *)
Definition is_linebreak (c : ascii) : bool :=
  in_range 10 13 c || in_range 28 30 c || in_range 133 133 c.

(** The class [\w] of [re] on a [str] pattern: alphanumeric or underscore. *)
Definition is_word (c : ascii) : bool :=
  in_range 48 57 c || in_range 65 90 c || in_range 95 95 c
  || in_range 97 122 c
  || in_range 170 170 c || in_range 178 179 c || in_range 181 181 c
  || in_range 185 186 c || in_range 188 190 c
  || in_range 192 214 c || in_range 216 246 c || in_range 248 255 c.

Definition is_empty (s : string) : bool :=
  match s with EmptyString => true | String _ _ => false end.

(** [s + c] for a single character [c]. *)
Fixpoint snoc (s : string) (c : ascii) : string :=
  match s with
  | EmptyString => String c EmptyString
  | String a s' => String a (snoc s' c)
  end.

Fixpoint lstrip_by (f : ascii → bool) (s : string) : string :=
  match s with
  | EmptyString => EmptyString
  | String c s' => if f c then lstrip_by f s' else s
  end.

Fixpoint rstrip_by (f : ascii → bool) (s : string) : string :=
  match s with
  | EmptyString => EmptyString
  | String c s' =>
      match rstrip_by f s' with
      | EmptyString => if f c then EmptyString else String c EmptyString
      | r => String c r
      end
  end.

Definition strip_by (f : ascii → bool) (s : string) : string :=
  rstrip_by f (lstrip_by f s).

(** [s.strip()] *)
Definition strip (s : string) : string := strip_by is_space s.

Fixpoint mem_char (c : ascii) (chars : string) : bool :=
  match chars with
  | EmptyString => false
  | String a chars' => bool_decide (a = c) || mem_char c chars'
  end.

(** [s.strip(chars)] *)
Definition strip_chars (chars s : string) : string :=
  strip_by (λ c, mem_char c chars) s.

(** [s.startswith(p)] *)
Fixpoint startswith (p s : string) : bool :=
  match p, s with
  | EmptyString, _ => true
  | String a p', String b s' => bool_decide (a = b) && startswith p' s'
  | String _ _, EmptyString => false
  end.

(** [sep.join(l)] *)
Fixpoint join (sep : string) (l : list string) : string :=
  match l with
  | [] => ""
  | [x] => x
  | x :: l' => x +:+ sep +:+ join sep l'
  end.

(** [s.splitlines()]: [cur] is the line being read, [after_cr] says that
    the previous character was a carriage return, whose line feed belongs
    to the same boundary.  A last line is produced only when it has at
    least one character. *)
Fixpoint splitlines_from (s cur : string) (after_cr : bool) : list string :=
  match s with
  | EmptyString => if is_empty cur then [] else [cur]
  | String c s' =>
      if after_cr && bool_decide (c = "010"%char) then
        splitlines_from s' cur false
      else if is_linebreak c then
        cur :: splitlines_from s' "" (bool_decide (c = "013"%char))
      else splitlines_from s' (snoc cur c) false
  end.

Definition splitlines (s : string) : list string :=
  splitlines_from s "" false.

(** [len(s)] *)
Definition len (s : string) : Z := Z.of_nat (String.length s).

End PyStr.

(** ** The two regular expressions of the scan *)

Module Re.
Import PyStr.

(** [re.search(lit, s)] for a pattern without metacharacters: is there a
    position at which [lit] starts? *)
Fixpoint search_literal (lit s : string) : bool :=
  startswith lit s
  || match s with
     | EmptyString => false
     | String _ s' => search_literal lit s'
     end.

(** The pattern [\w+:] anchored at the head of [s], giving [group(0)].
    [\w+] is greedy: the longer run is tried first, and the run stops at
    this character only when the longer attempts have failed. *)
Fixpoint match_word_colon (s : string) : option string :=
  match s with
  | EmptyString => None
  | String c s' =>
      if is_word c then
        match match_word_colon s' with
        | Some m => Some (String c m)
        | None =>
            match s' with
            | String ":" _ => Some (String c ":")
            | _ => None
            end
        end
      else None
  end.

(** [re.search("\w+:", s)]: the match at the leftmost position that has
    one; [None] when there is none. *)
Fixpoint search_word_colon (s : string) : option string :=
  match match_word_colon s with
  | Some m => Some m
  | None =>
      match s with
      | EmptyString => None
      | String _ s' => search_word_colon s'
      end
  end.

End Re.

(** ** The framework's reflection interface

    Classes, their declared fields and the types of those fields belong to
    the host framework; the parser only reads them.  A class is known by its
    identity, and the interpreter's class table gives what reflection
    returns for it. *)

(** A type object, as far as [prop_docs] looks at it: its [__name__] if it
    has one, whether it is a subclass of [rx.Var], its type arguments
    ([get_args]) and its printed form.  Type objects are hashable and equal
    to no [str]. *)
#[warnings="-register-all"]
Inductive tydesc : Type :=
  TyObj (ty_name : option string) (ty_is_var : bool)
        (ty_args : list tydesc) (ty_repr : string).

Definition ty_name (t : tydesc) : option string :=
  let 'TyObj n _ _ _ := t in n.
Definition ty_is_var (t : tydesc) : bool :=
  let 'TyObj _ v _ _ := t in v.
Definition ty_args (t : tydesc) : list tydesc :=
  let 'TyObj _ _ a _ := t in a.
Definition ty_repr (t : tydesc) : string :=
  let 'TyObj _ _ _ r := t in r.

Definition class_id := nat.

Record pyclass := PyClass {
  cls_doc : option string;           (* cls.__doc__ *)
  cls_source : string;               (* inspect.getsource(cls) *)
  cls_props : gset string;           (* cls.get_props() *)
  cls_fields : gmap string tydesc;   (* cls.get_fields()[p].outer_type_ *)
  cls_bases : list class_id          (* cls.__bases__ *)
}.

Record World := MkWorld {
  classes : class_id → pyclass;
  rx_Component : class_id            (* the framework's root component class *)
}.

(** ** Exceptions, outcomes and the monad of a method call *)

Inductive exn : Type :=
  | AssertionError (msg : string)
  | IndexError
  | KeyError (key : string).

(** [OutOfFuel] is not a Python outcome: it marks a run of the model that
    was given too little fuel to finish. *)
Inductive outcome (A : Type) : Type :=
  | Ret (a : A)
  | Raise (e : exn)
  | OutOfFuel.
Arguments Ret {A} a.
Arguments Raise {A} e.
Arguments OutOfFuel {A}.

(** class Prop(Base) *)
Record Prop_ := mkProp {
  name : string;
  type_ : tydesc;
  description : string
}.

(** class Source(Base) *)
Record Source := mkSource {
  component : class_id;
  code : list string
}.

(** A method body: it runs on [self], may assign its fields, and returns or
    raises. *)
Definition M (A : Type) : Type := Source → outcome A * Source.

Definition ret {A} (a : A) : M A := λ self, (Ret a, self).
Definition raise {A} (e : exn) : M A := λ self, (Raise e, self).
Definition out_of_fuel {A} : M A := λ self, (OutOfFuel, self).

Definition bind {A B} (m : M A) (k : A → M B) : M B :=
  λ self,
    match m self with
    | (Ret a, self') => k a self'
    | (Raise e, self') => (Raise e, self')
    | (OutOfFuel, self') => (OutOfFuel, self')
    end.

Notation "'let*' x ':=' m 'in' k" := (bind m (λ x, k))
  (at level 10, x pattern, m at level 100, k at level 200,
   only parsing) : stdpp_scope.

(** [self.component], [self.code], [self.code = l] *)
Definition self_component : M class_id := λ self, (Ret (component self), self).
Definition self_code : M (list string) := λ self, (Ret (code self), self).
Definition set_self_code (l : list string) : M unit :=
  λ self, (Ret tt, mkSource (component self) l).

(** A method called on another object [obj]: [self] is not involved, and
    the object is dropped after the call. *)
Definition call_on {A} (obj : Source) (m : M A) : M A :=
  λ self, (fst (m obj), self).

(** [l[k]] on a Python list: a negative index counts from the end. *)
Definition list_getitem {A} (l : list A) (k : Z) : option A :=
  let n := Z.of_nat (length l) in
  let k' := if (k <? 0)%Z then (k + n)%Z else k in
  if (k' <? 0)%Z || (n <=? k')%Z then None else l !! Z.to_nat k'.

Definition getitem {A} (l : list A) (k : Z) : M A :=
  match list_getitem l k with
  | Some x => ret x
  | None => raise IndexError
  end.

(** [d[key]] on a dict with [str] keys. *)
Definition dict_getitem {A} (d : gmap string A) (key : string) : M A :=
  match d !! key with
  | Some x => ret x
  | None => raise (KeyError key)
  end.

(** [assert b, msg] *)
Definition assert_ (b : bool) (msg : string) : M unit :=
  if b then ret tt else raise (AssertionError msg).

(** [enumerate(l)] *)
Fixpoint enumerate_from {A} (i : Z) (l : list A) : list (Z * A) :=
  match l with
  | [] => []
  | x :: l' => (i, x) :: enumerate_from (i + 1)%Z l'
  end.
Definition enumerate {A} (l : list A) : list (Z * A) := enumerate_from 0%Z l.

(** A [for] loop whose body may [break]; [continue] is the body returning
    [Continue] early. *)
Inductive flow (St : Type) : Type :=
  | Continue (st : St)
  | Break (st : St).
Arguments Continue {St} st.
Arguments Break {St} st.

Definition flow_state {St} (r : flow St) : St :=
  match r with Continue st => st | Break st => st end.

Fixpoint for_each {A St} (body : A → St → M (flow St))
    (l : list A) (st : St) : M (flow St) :=
  match l with
  | [] => ret (Continue st)
  | x :: l' =>
      let* r := body x st in
      match r with
      | Continue st' => for_each body l' st'
      | Break st' => ret (Break st')
      end
  end.

(** ** class Source *)

(** Source.__init__: the non-empty lines of the class's source. *)
Definition __init__ (W : World) : M unit :=
  let* cls := self_component in
  set_self_code
    (List.filter (λ line, (0 <? PyStr.len line)%Z)
       (PyStr.splitlines (cls_source (classes W cls)))).

(** [Source(component=cls)]: the fields get their declared defaults, then
    [__init__] runs. *)
Definition new_Source (W : World) (cls : class_id) : Source :=
  snd (__init__ W (mkSource cls [])).

(** Source.get_docs *)
Definition get_docs (W : World) : M (option string) :=
  let* cls := self_component in
  ret (cls_doc (classes W cls)).

(** Source.get_comment *)
Definition get_comment (comments : list string) : string :=
  PyStr.join ""
    (map (λ comment, PyStr.strip_chars "#" (PyStr.strip comment)) comments).

(** The loop variables of [_get_props]: the pending [comments] and [out]. *)
Definition scan_state : Type := list string * list Prop_.

(** One iteration of the loop of [_get_props] on [(i, line)]. *)
Definition scan_line (W : World) (props : gset string)
    (il : Z * string) (st : scan_state) : M (flow scan_state) :=
  let '(i, line) := il in
  let '(comments, out) := st in
  if Re.search_literal "def " line then ret (Break st)
  else if PyStr.startswith "#" (PyStr.strip line) then
    ret (Continue (comments ++ [line], out))
  else
    match Re.search_word_colon line with
    | None => ret (Continue st)
    | Some group0 =>
        let prop := PyStr.strip_chars ":" group0 in
        if bool_decide (prop ∈ props) then
          let* lines := self_code in
          let* above := getitem lines (i - 1)%Z in
          let comment_above := PyStr.strip above in
          let* _ := assert_ (PyStr.startswith "#" comment_above)
                      ("Expected comment, got " +:+ comment_above) in
          let comment := get_comment comments in
          let* cls := self_component in
          let* ty := dict_getitem (cls_fields (classes W cls)) prop in
          ret (Continue ([], out ++ [mkProp prop ty comment]))
        else ret (Continue st)
    end.

Global Arguments scan_line : simpl never.

(** Source._get_props *)
Definition _get_props (W : World) : M (list Prop_) :=
  let* cls := self_component in
  let props := cls_props (classes W cls) in
  let* lines := self_code in
  let* r := for_each (scan_line W props) (enumerate lines) ([], []) in
  ret (snd (flow_state r)).

(** Source.get_props.  The recursion follows the first base class; [fuel]
    bounds its depth. *)
Fixpoint get_props (W : World) (fuel : nat) : M (list Prop_) :=
  match fuel with
  | O => out_of_fuel
  | S fuel' =>
      let* props := _get_props W in
      let* cls := self_component in
      let* parent_cls := getitem (cls_bases (classes W cls)) 0%Z in
      if bool_decide (parent_cls ≠ rx_Component W) then
        let* inherited :=
          call_on (new_Source W parent_cls) (get_props W fuel') in
        ret (props ++ inherited)
      else ret props
  end.

(** ** TYPE_COLORS and prop_docs *)

Definition TYPE_COLORS : gmap string string :=
  list_to_map
    [("int", "red"); ("float", "orange"); ("str", "yellow");
     ("bool", "teal"); ("Component", "purple"); ("List", "blue");
     ("Dict", "blue"); ("Tuple", "blue"); ("None", "gray");
     ("Figure", "green")].

(** What [type_] holds after the [try]: the name, or still the type object. *)
Inductive pyval : Type :=
  | VStr (s : string)
  | VType (t : tydesc).

(** [d.get(key, default)] on a dict whose keys are all [str]. *)
Definition dict_get (d : gmap string string) (key : pyval)
    (dflt : string) : string :=
  match key with
  | VStr s => default dflt (d !! s)
  | VType _ => dflt
  end.

(** The cells [prop_docs] builds. *)
Inductive ui : Type :=
  | rx_td (child : ui)
  | rx_code (text : string) (color : string)
  | rx_badge (label : pyval) (color_scheme : string) (variant : string)
  | markdown_memo (content : string).

(** What a call leaves on standard output, and its outcome. *)
Definition printing (A : Type) : Type := list string * outcome A.

(** prop_docs *)
Definition prop_docs (prop : Prop_) : printing (list ui) :=
  let resolved :=
    if ty_is_var (type_ prop)
    then list_getitem (ty_args (type_ prop)) 0%Z
    else Some (type_ prop) in
  match resolved with
  | None => ([], Raise IndexError)
  | Some ty =>
      let '(printed, type_1) :=
        match ty_name ty with
        | Some n => ([], VStr n)
        | None => ([ty_repr ty], VType ty)
        end in
      let color := dict_get TYPE_COLORS type_1 "gray" in
      (printed,
       Ret [rx_td (rx_code (name prop) "#333");
            rx_td (rx_badge type_1 color "solid");
            rx_td (markdown_memo (description prop))])
  end.

(** ** Vocabulary of the properties *)

Definition is_def_line (line : string) : bool :=
  Re.search_literal "def " line.

Definition is_comment_line (line : string) : bool :=
  PyStr.startswith "#" (PyStr.strip line).

(** The declared prop the scan matches a line to: the line is neither a
    method line nor a comment line, [\w+:] matches in it, and the matched
    identifier is one of [props]. *)
Definition matched_prop (props : gset string) (line : string)
    : option string :=
  if is_def_line line then None
  else if is_comment_line line then None
  else
    match Re.search_word_colon line with
    | Some group0 =>
        let prop := PyStr.strip_chars ":" group0 in
        if bool_decide (prop ∈ props) then Some prop else None
    | None => None
    end.

Definition own_props (W : World) (self : Source) : gset string :=
  cls_props (classes W (component self)).

Definition own_fields (W : World) (self : Source) : gmap string tydesc :=
  cls_fields (classes W (component self)).

(** A line the scan takes for a comment: it is reached as one, not as a
    method line. *)
Definition scanned_comment (line : string) : Prop :=
  is_def_line line = false ∧ is_comment_line line = true.

(** The loop of [_get_props] on [self] has run through the lines of index
    below [i] without [break] and without an exception, and holds [st]. *)
Definition scans_to (W : World) (self : Source) (i : nat) (st : scan_state)
    : Prop :=
  for_each (scan_line W (own_props W self))
    (enumerate (take i (code self))) ([], []) self
  = (Ret (Continue st), self).

(** What [_get_props] returns, from how its loop ended. *)
Definition loop_result (r : outcome (flow scan_state))
    : outcome (list Prop_) :=
  match r with
  | Ret r => Ret (snd (flow_state r))
  | Raise e => Raise e
  | OutOfFuel => OutOfFuel
  end.

(** A method body that leaves the fields of [self] as they are, however it
    ends. *)
Definition preserves_self {A} (m : M A) : Prop :=
  ∀ self, snd (m self) = self.

(** No line of index below [i] is a method line. *)
Definition no_def_before (lines : list string) (i : nat) : Prop :=
  ∀ j line, (j < i)%nat → lines !! j = Some line → is_def_line line = false.

(** The number of steps from a class along first base classes to the root
    component class. *)
Inductive inherit_depth (W : World) : class_id → nat → Prop :=
  | depth_root cls base bases :
      cls_bases (classes W cls) = base :: bases →
      base = rx_Component W →
      inherit_depth W cls 0
  | depth_step cls base bases n :
      cls_bases (classes W cls) = base :: bases →
      base ≠ rx_Component W →
      inherit_depth W base n →
      inherit_depth W cls (S n).

(** The text cut at every line boundary character. *)
Fixpoint pieces (s : string) : list string :=
  match s with
  | EmptyString => [""]
  | String c s' =>
      if PyStr.is_linebreak c then "" :: pieces s'
      else
        match pieces s' with
        | p :: ps => String c p :: ps
        | [] => [String c ""]
        end
  end.

(** The non-empty lines of a text, in order. *)
Definition nonempty_lines (s : string) : list string :=
  List.filter (λ l, negb (PyStr.is_empty l)) (pieces s).

(** ** Sample classes *)

Module Sample.

Definition nl : string := String "010" "".

(** A source text from its lines, each ended by a line feed. *)
Definition text (lines : list string) : string :=
  foldr (λ l acc, l +:+ nl +:+ acc) "" lines.

Definition int_ : tydesc := TyObj (Some "int") false [] "<class 'int'>".
Definition str_ : tydesc := TyObj (Some "str") false [] "<class 'str'>".
Definition Var_int : tydesc := TyObj None true [int_] "reflex.vars.Var[int]".
Definition Union_ : tydesc :=
  TyObj None false [str_; int_] "typing.Union[str, int]".
Definition Var_Union : tydesc :=
  TyObj None true [Union_] "reflex.vars.Var[typing.Union[str, int]]".
Definition Color_ : tydesc := TyObj (Some "Color") false [] "<class 'Color'>".

(** The root component class, with the base class it has in the framework
    (class 9, which is no component). *)
Definition Component_cls : pyclass :=
  PyClass (Some "The base class for all components.")
    (text ["class Component(Base, ABC):"]) ∅ ∅ [9].

(** class Foo(rx.Component): one documented prop [a], and a field [b] that
    is no prop. *)
Definition Foo_cls : pyclass :=
  PyClass (Some "A foo.")
    (text ["class Foo(rx.Component):";
           "    # desc_a";
           "    a: Var[int]";
           "    b: str"])
    {["a"]} {["a" := Var_int; "b" := str_]} [0].

(** class Tagged(rx.Component): a commented class attribute that is no
    prop, above a prop with two comment lines of its own. *)
Definition Tagged_cls : pyclass :=
  PyClass None
    (text ["class Tagged(rx.Component):";
           "    # The tag.";
           "    tag = 1";
           "";
           "    # first";
           "    # second";
           "    a: Var[int]";
           "";
           "    def render(self):";
           "        # not a prop";
           "        a: int = 0"])
    {["a"]} {["a" := Var_int]} [0].

(** class Bare(rx.Component): a prop without a comment above it. *)
Definition Bare_cls : pyclass :=
  PyClass None
    (text ["class Bare(rx.Component):";
           "    tag = 1";
           "    a: Var[int]"])
    {["a"]} {["a" := Var_int]} [0].

(** class Sub(Foo): a derived class with one documented prop of its own. *)
Definition Sub_cls : pyclass :=
  PyClass None
    (text ["class Sub(Foo):";
           "    # desc_c";
           "    c: Var[int]"])
    {["a"; "c"]} {["a" := Var_int; "b" := str_; "c" := Var_int]} [1].

(** A fragment whose first stored line is already a prop declaration. *)
Definition Headless_cls : pyclass :=
  PyClass None
    (text ["a: Var[int]";
           "# trailing"])
    {["a"]} {["a" := Var_int]} [0].

Definition Other_cls : pyclass := PyClass None "" ∅ ∅ [].

Definition world : World :=
  MkWorld
    (λ cls,
       match cls with
       | 0 => Component_cls
       | 1 => Foo_cls
       | 2 => Tagged_cls
       | 3 => Bare_cls
       | 4 => Sub_cls
       | 5 => Headless_cls
       | _ => Other_cls
       end)
    0.

End Sample.

(** ** Further vocabulary *)

(** All characters of [s] satisfy [f]. *)
Fixpoint all_chars (f : ascii → bool) (s : string) : bool :=
  match s with
  | EmptyString => true
  | String c s' => f c && all_chars f s'
  end.

(** The characters of [s] that satisfy [f], in order. *)
Fixpoint keep_chars (f : ascii → bool) (s : string) : string :=
  match s with
  | EmptyString => EmptyString
  | String c s' => if f c then String c (keep_chars f s') else keep_chars f s'
  end.

(** A record that documents a declared prop of [self]'s class, with the
    type the class gives to that field. *)
Definition documents_prop (W : World) (self : Source) (r : Prop_) : Prop :=
  name r ∈ own_props W self ∧ own_fields W self !! name r = Some (type_ r).

(** The [n] classes met from [cls] along first base classes. *)
Fixpoint ancestors (W : World) (cls : class_id) (n : nat) : list class_id :=
  match n with
  | O => []
  | S n' =>
      match cls_bases (classes W cls) with
      | base :: _ => base :: ancestors W base n'
      | [] => []
      end
  end.

(** The colours that occur in [TYPE_COLORS], and the default. *)
Definition palette : list string :=
  ["red"; "orange"; "yellow"; "teal"; "purple"; "blue"; "gray"; "green"].

(** The last character of [s], if it has one. *)
Fixpoint last_char (s : string) : option ascii :=
  match s with
  | EmptyString => None
  | String c EmptyString => Some c
  | String _ s' => last_char s'
  end.

(** Two lines that differ at most by their leading whitespace. *)
Definition same_modulo_indent (l l' : string) : Prop :=
  PyStr.lstrip_by PyStr.is_space l = PyStr.lstrip_by PyStr.is_space l'.

(** ** The documentation page of a component *)

(** The value of a keyword argument: a string, a boolean, [None], or a
    value of another module, kept by its name. *)
Inductive attr : Type :=
  | AStr (s : string)
  | ABool (b : bool)
  | ANone
  | AName (qualified : string).

(** A tree of interface elements: a call of the framework's [fn] with its
    positional arguments (the children) and its keyword arguments, a [str]
    child, or a type object used as a child. *)
#[warnings="-register-all"]
Inductive node : Type :=
  | Txt (s : string)
  | Obj (ty : tydesc)
  | El (fn : string) (children : list node) (kwargs : list (string * attr)).

(** The cells of [prop_docs] as elements. *)
Fixpoint node_of_ui (u : ui) : node :=
  match u with
  | rx_td child => El "rx.td" [node_of_ui child] []
  | rx_code text color => El "rx.code" [Txt text] [("color", AStr color)]
  | rx_badge label color_scheme variant =>
      El "rx.badge"
        [match label with VStr s => Txt s | VType ty => Obj ty end]
        [("color_scheme", AStr color_scheme); ("variant", AStr variant)]
  | markdown_memo content => El "markdown_memo" [] [("content", AStr content)]
  end.

(** What else [component_docs] asks the framework about a class: its
    [__name__], the keys of [cls().get_event_triggers()], and the keys of
    [rx.Component.create().get_event_triggers()]. *)
Record Reflect := MkReflect {
  world_of : World;
  cls_name : class_id → string;
  cls_event_triggers : class_id → list string;
  default_triggers : list string
}.

(** EVENTS.  The descriptions are display text that nothing inspects; the
    apostrophe U+2019 that some of them hold is written in UTF-8. *)
Definition EVENTS : gmap string (gmap string string) :=
  list_to_map
    [
     ("on_focus",
      {["description" := "Function or event handler called when the element (or some element inside of it) receives focus. For example, it is called when the user clicks on a text input."]});
     ("on_blur",
      {["description" := "Function or event handler called when focus has left the element (or left some element inside of it). For example, it is called when the user clicks outside of a focused text input."]});
     ("on_change",
      {["description" := "Function or event handler called when the value of an element has changed. For example, it is called when the user types into a text input each keystoke triggers the on change."]});
     ("on_click",
      {["description" := "Function or event handler called when the user clicks on an element. For example, it’s called when the user clicks on a button."]});
     ("on_context_menu",
      {["description" := "Function or event handler called when the user right-clicks on an element. For example, it is called when the user right-clicks on a button."]});
     ("on_double_click",
      {["description" := "Function or event handler called when the user double-clicks on an element. For example, it is called when the user double-clicks on a button."]});
     ("on_mouse_up",
      {["description" := "Function or event handler called when the user releases a mouse button on an element. For example, it is called when the user releases the left mouse button on a button."]});
     ("on_mouse_down",
      {["description" := "Function or event handler called when the user presses a mouse button on an element. For example, it is called when the user presses the left mouse button on a button."]});
     ("on_mouse_enter",
      {["description" := "Function or event handler called when the user’s mouse enters an element. For example, it is called when the user’s mouse enters a button."]});
     ("on_mouse_leave",
      {["description" := "Function or event handler called when the user’s mouse leaves an element. For example, it is called when the user’s mouse leaves a button."]});
     ("on_mouse_move",
      {["description" := "Function or event handler called when the user moves the mouse over an element. For example, it’s called when the user moves the mouse over a button."]});
     ("on_mouse_out",
      {["description" := "Function or event handler called when the user’s mouse leaves an element. For example, it is called when the user’s mouse leaves a button."]});
     ("on_mouse_over",
      {["description" := "Function or event handler called when the user’s mouse enters an element. For example, it is called when the user’s mouse enters a button."]});
     ("on_scroll",
      {["description" := "Function or event handler called when the user scrolls the page. For example, it is called when the user scrolls the page down."]});
     ("on_submit",
      {["description" := "Function or event handler called when the user submits a form. For example, it is called when the user clicks on a submit button."]});
     ("on_cancel",
      {["description" := "Function or event handler called when the user cancels a form. For example, it is called when the user clicks on a cancel button."]});
     ("on_edit",
      {["description" := "Function or event handler called when the user edits a form. For example, it is called when the user clicks on a edit button."]});
     ("on_change_start",
      {["description" := "Function or event handler called when the user starts selecting a new value(By dragging or clicking)."]});
     ("on_change_end",
      {["description" := "Function or event handler called when the user is done selecting a new value(By dragging or clicking)."]});
     ("on_complete",
      {["description" := "Called when the user completes a form. For example, it’s called when the user clicks on a complete button."]});
     ("on_error",
      {["description" := "The on_error event handler is called when the user encounters an error in a form. For example, it’s called when the user clicks on a error button."]});
     ("on_load",
      {["description" := "The on_load event handler is called when the user loads a form. For example, it is called when the user clicks on a load button."]});
     ("on_esc",
      {["description" := "The on_esc event handler is called when the user presses the escape key. For example, it is called when the user presses the escape key."]});
     ("on_open",
      {["description" := "The on_open event handler is called when the user opens a form. For example, it is called when the user clicks on a open button."]});
     ("on_close",
      {["description" := "The on_close event handler is called when the user closes a form. For example, it is called when the user clicks on a close button."]});
     ("on_close_complete",
      {["description" := "The on_close_complete event handler is called when the user closes a form. For example, it is called when the user clicks on a close complete button."]});
     ("on_overlay_click",
      {["description" := "The on_overlay_click event handler is called when the user clicks on an overlay. For example, it is called when the user clicks on a overlay button."]});
     ("on_key_down",
      {["description" := "The on_key_down event handler is called when the user presses a key."]});
     ("on_key_up",
      {["description" := "The on_key_up event handler is called when the user releases a key."]});
     ("on_ready",
      {["description" := "The on_ready event handler is called when the script is ready to be executed."]});
     ("on_mount",
      {["description" := "The on_mount event handler is called when the component is loaded on the page."]});
     ("on_unmount",
      {["description" := "The on_unmount event handler is called when the component is removed from the page. This handler is only called during navigation, not when the page is refreshed."]});
     ("on_input",
      {["description" := "The on_input event handler is called when the editor receives input from the user. It receives the raw browser event as an argument."]});
     ("on_resize_editor",
      {["description" := "The on_resize_editor event handler is called when the editor is resized. It receives the height and previous height as arguments."]});
     ("on_copy",
      {["description" := "The on_copy event handler is called when the user copies text from the editor. It receives the clipboard data as an argument."]});
     ("on_cut",
      {["description" := "The on_cut event handler is called when the user cuts text from the editor. It receives the clipboard data as an argument."]});
     ("on_paste",
      {["description" := "The on_paste event handler is called when the user pastes text into the editor. It receives the clipboard data and max character count as arguments."]});
     ("toggle_code_view",
      {["description" := "The toggle_code_view event handler is called when the user toggles code view. It receives a boolean whether code view is active."]});
     ("toggle_full_screen",
      {["description" := "The toggle_full_screen event handler is called when the user toggles full screen. It receives a boolean whether full screen is active."]});
     ("on_cell_activated",
      {["description" := "The on_cell_activated event handler is called when the user activate a cell from the data editor. It receive the coordinates of the cell."]});
     ("on_cell_clicked",
      {["description" := "The on_cell_clicked event handler is called when the user click on a cell of the data editor. It receive the coordinates of the cell."]});
     ("on_cell_context_menu",
      {["description" := "The on_cell_context_menu event handler is called when the user right-click on a cell of the data editor. It receives the coordinates of the cell."]});
     ("on_cell_edited",
      {["description" := "The on_cell_edited event handler is called when the user modify the content of a cell. It receives the coordinates of the cell and the modified content."]});
     ("on_group_header_clicked",
      {["description" := "The on_group_header_clicked event handler is called when the user left-click on a group header of the data editor. It receive the index and the data of the group header."]});
     ("on_group_header_context_menu",
      {["description" := "The on_group_header_context_menu event handler is called when the user right-click on a group header of the data editor. It receive the index and the data of the group header."]});
     ("on_group_header_renamed",
      {["description" := "The on_group_header_context_menu event handler is called when the user rename a group header of the data editor. It receive the index and the modified content of the group header."]});
     ("on_header_clicked",
      {["description" := "The on_header_clicked event handler is called when the user left-click a header of the data editor. It receive the index and the content of the header."]});
     ("on_header_context_menu",
      {["description" := "The on_header_context_menu event handler is called when the user right-click a header of the data editor. It receives the index and the content of the header. "]});
     ("on_header_menu_click",
      {["description" := "The on_header_menu_click event handler is called when the user click on the menu button of the header. (menu header not implemented yet)"]});
     ("on_item_hovered",
      {["description" := "The on_item_hovered event handler is called when the user hover on an item of the data editor."]});
     ("on_delete",
      {["description" := "The on_delete event handler is called when the user delete a cell of the data editor."]});
     ("on_finished_editing",
      {["description" := "The on_finished_editing event handler is called when the user finish an editing, regardless of if the value changed or not."]});
     ("on_row_appended",
      {["description" := "The on_row_appended event handler is called when the user add a row to the data editor."]});
     ("on_selection_cleared",
      {["description" := "The on_selection_cleared event handler is called when the user unselect a region of the data editor."]});
     ("on_column_resize",
      {["description" := "The on_column_resize event handler is called when the user try to resize a column from the data editor."]})
    ].

(** Sequencing of calls that print and may raise. *)
Definition print_ret {A} (a : A) : printing A := ([], Ret a).

Definition print_bind {A B} (m : printing A) (k : A → printing B)
    : printing B :=
  match m with
  | (printed, Ret a) => let '(printed', r) := k a in (printed ++ printed', r)
  | (printed, Raise e) => (printed, Raise e)
  | (printed, OutOfFuel) => (printed, OutOfFuel)
  end.

Notation "'let+' x ':=' m 'in' k" := (print_bind m (λ x, k))
  (at level 10, x pattern, m at level 100, k at level 200,
   only parsing) : stdpp_scope.

(** [[f(x) for x in l]] *)
Fixpoint print_map {A B} (f : A → printing B) (l : list A)
    : printing (list B) :=
  match l with
  | [] => print_ret []
  | x :: l' =>
      let+ y := f x in
      let+ ys := print_map f l' in
      print_ret (y :: ys)
  end.

(** [d[key]] outside a method. *)
Definition lookup_or_KeyError {A} (d : gmap string A) (key : string)
    : printing A :=
  match d !! key with
  | Some x => print_ret x
  | None => ([], Raise (KeyError key))
  end.

(** [event not in default_triggers and event not in ("on_drop",)] *)
Definition is_specific_trigger (R : Reflect) (event : string) : bool :=
  negb (bool_decide (event ∈ default_triggers R))
  && negb (bool_decide (event ∈ ["on_drop"])).

Definition heading_1em (text : string) : node :=
  El "rx.heading" [Txt text] [("font_size", AStr "1em")].

(** component_docs *)
Definition component_docs (R : Reflect) (fuel : nat) (component : class_id)
    : printing node :=
  let W := world_of R in
  let src := new_Source W component in
  let '(len_props, src) := get_props W fuel src in
  let+ counted := ([], len_props) in
  let+ (props, src) :=
    if (0 <? Z.of_nat (length counted))%Z then
      let '(listed, src) := get_props W fuel src in
      let+ listed := ([], listed) in
      let+ rows :=
        print_map
          (λ prop,
             let+ cells := prop_docs prop in
             print_ret (El "rx.tr" (map node_of_ui cells) []))
          listed in
      print_ret
        ([El "rx.accordion"
            [El "rx.accordion_item"
               [El "rx.accordion_button"
                  [El "rx.accordion_icon" [] []; heading_1em "Props"] [];
                El "rx.accordion_panel"
                  [El "rx.box"
                     [El "rx.table"
                        [El "rx.thead"
                           [El "rx.tr"
                              [El "rx.th" [Txt "Prop"] [];
                               El "rx.th" [Txt "Type"] [];
                               El "rx.th" [Txt "Description"] []] []] [];
                         El "rx.tbody" rows []] []]
                     [("background_color", AStr "rgb(255, 255, 255)");
                      ("border_radius", AStr "1em");
                      ("box_shadow", AName "styles.DOC_SHADOW_LIGHT");
                      ("padding", AStr "1em");
                      ("max_width", AStr "100%");
                      ("overflow_x", AStr "auto")]] []] []]
            [("border_color", AStr "rgb(255, 255, 255)");
             ("width", AStr "100%");
             ("allow_toggle", ABool true)]],
         src)
    else
      print_ret
        ([El "rx.box"
            [El "rx.unordered_list"
               [El "rx.list_item"
                  [heading_1em
                     ("No props for " +:+ cls_name R component +:+ ".")] []]
               []]
            [("padding_x", AStr "1.5em");
             ("max_width", AStr "100%");
             ("overflow_x", AStr "auto")]],
         src) in
  let trig :=
    foldl (λ trig event,
             if is_specific_trigger R event then trig ++ [event] else trig)
      [] (cls_event_triggers R component) in
  let+ component_specific_triggers :=
    if negb (bool_decide (trig = [])) then
      let+ items :=
        print_map
          (λ event,
             let+ entry := lookup_or_KeyError EVENTS event in
             let+ descr := lookup_or_KeyError entry "description" in
             print_ret
               (El "rx.accordion_item"
                  [El "rx.accordion_button"
                     [El "rx.accordion_icon" [] [];
                      El "rx.code" [Txt event] []] [];
                   El "rx.accordion_panel"
                     [El "rx.text" [Txt descr] []] []] []))
          (List.filter (is_specific_trigger R)
             (cls_event_triggers R component)) in
      let specific_triggers :=
        El "rx.accordion_item"
          [El "rx.accordion_button"
             [El "rx.accordion_icon" [] [];
              heading_1em "Component Specific Triggers"] [];
           El "rx.accordion_panel" items []]
          [("border_color", AStr "rgb(255, 255, 255)")] in
      print_ret
        (El "rx.accordion"
           [El "rx.accordion_item"
              [El "rx.accordion_button"
                 [El "rx.accordion_icon" [] []; heading_1em "Event Triggers"]
                 [];
               El "rx.accordion_panel"
                 [El "rx.accordion_item"
                    [El "rx.accordion_button"
                       [El "rx.link"
                          [El "rx.hstack"
                             [El "rx.icon" [] [("tag", AStr "link")];
                              heading_1em "Base Event Triggers"] []]
                          [("href", AName "event_triggers.path")]] []]
                    [("border_color", AStr "rgb(255, 255, 255)")];
                  specific_triggers] []] []]
           [("border_color", AStr "rgb(255, 255, 255)");
            ("allow_multiple", ABool true);
            ("width", AStr "100%");
            ("align_items", AStr "left")])
    else
      print_ret
        (El "rx.box"
           [El "rx.unordered_list"
              [El "rx.list_item" [heading_1em "Base Event Triggers"] []] []]
           [("padding_top", AStr "1.5em");
            ("padding_x", AStr "1.5em");
            ("max_width", AStr "100%");
            ("overflow_x", AStr "auto")]) in
  let triggers :=
    [El "rx.box" [component_specific_triggers]
       [("max_width", AStr "100%"); ("overflow_x", AStr "auto")]] in
  let '(doc, src) := get_docs W src in
  let+ doc := ([], doc) in
  print_ret
    (El "rx.box"
       ([El "docheader" [Txt (cls_name R component)] [];
         El "markdown_memo" []
           [("content", match doc with Some d => AStr d | None => ANone end)];
         El "rx.divider" [] []]
        ++ props ++ triggers)
       [("text_align", AStr "left")]).

(** The triggers a page lists as specific to the component. *)
Definition specific_triggers (R : Reflect) (cls : class_id) : list string :=
  List.filter (is_specific_trigger R) (cls_event_triggers R cls).

(** An event that [EVENTS] describes. *)
Definition described (event : string) : Prop :=
  ∃ entry descr,
    EVENTS !! event = Some entry ∧ entry !! "description" = Some descr.

(** A prop whose type [prop_docs] can display: not an [rx.Var] without type
    argument. *)
Definition displayable (prop : Prop_) : Prop :=
  ¬ (ty_is_var (type_ prop) = true ∧ ty_args (type_ prop) = []).

(** The [str] children of the elements built by [fn], in document order. *)
Fixpoint texts_under (fn : string) (n : node) : list string :=
  match n with
  | El f children _ =>
      (if bool_decide (f = fn)
       then flat_map (λ c, match c with Txt s => [s] | _ => [] end) children
       else [])
      ++ flat_map (texts_under fn) children
  | _ => []
  end.

(** The lines before the first method line. *)
Fixpoint before_def (lines : list string) : list string :=
  match lines with
  | [] => []
  | line :: lines' =>
      if is_def_line line then [] else line :: before_def lines'
  end.

(** ** More sample classes *)

Module Sample2.

(** class Noted(rx.Component): a comment that mentions a method, between two
    documented props. *)
Definition Noted_cls : pyclass :=
  PyClass None
    (Sample.text ["class Noted(rx.Component):";
                  "    # The a.";
                  "    a: Var[int]";
                  "    # see def render below";
                  "    # The b.";
                  "    b: Var[int]"])
    {["a"; "b"]} {["a" := Sample.Var_int; "b" := Sample.Var_int]} [0].

(** The same class with a blank line after its header. *)
Definition Spaced_cls : pyclass :=
  PyClass None
    ("class Noted(rx.Component):"
     +:+ String "010" (String "010"
           (Sample.text ["    # The a.";
                         "    a: Var[int]";
                         "    # see def render below";
                         "    # The b.";
                         "    b: Var[int]"])))
    {["a"; "b"]} {["a" := Sample.Var_int; "b" := Sample.Var_int]} [0].

(** class Leaf(Bare): a documented prop of its own, below a base class
    whose prop has no comment. *)
Definition Leaf_cls : pyclass :=
  PyClass None
    (Sample.text ["class Leaf(Bare):";
                  "    # The c.";
                  "    c: Var[int]"])
    {["a"; "c"]} {["a" := Sample.Var_int; "c" := Sample.Var_int]} [3].

Definition world : World :=
  MkWorld
    (λ cls,
       match cls with
       | 0 => Sample.Component_cls
       | 1 => Noted_cls
       | 2 => Spaced_cls
       | 3 => Sample.Bare_cls
       | 4 => Leaf_cls
       | _ => Sample.Other_cls
       end)
    0.

End Sample2.

(** ** Classes that declare [a] below the comment [# desc_a] *)

Module Sample3.

(** The class Foo with a further comment line above the comment of [a]. *)
Definition Sectioned_cls : pyclass :=
  PyClass None
    (Sample.text ["class Foo(rx.Component):";
                  "    # --- props ---";
                  "    # desc_a";
                  "    a: Var[int]";
                  "    b: str"])
    {["a"]} {["a" := Sample.Var_int; "b" := Sample.str_]} [0].

(** class Basis(rx.Component): one documented prop [c]. *)
Definition Basis_cls : pyclass :=
  PyClass None
    (Sample.text ["class Basis(rx.Component):";
                  "    # desc_c";
                  "    c: Var[int]"])
    {["c"]} {["c" := Sample.Var_int]} [0].

(** The class Foo derived from Basis. *)
Definition Derived_cls : pyclass :=
  PyClass None
    (Sample.text ["class Foo(Basis):";
                  "    # desc_a";
                  "    a: Var[int]";
                  "    b: str"])
    {["a"; "c"]}
    {["a" := Sample.Var_int; "b" := Sample.str_; "c" := Sample.Var_int]} [3].

Definition world : World :=
  MkWorld
    (λ cls,
       match cls with
       | 0 => Sample.Component_cls
       | 1 => Sample.Foo_cls
       | 2 => Sectioned_cls
       | 3 => Basis_cls
       | 4 => Derived_cls
       | _ => Sample.Other_cls
       end)
    0.

End Sample3.

(** A line the scan passes over without any effect: no method line, no
    comment, and not matched to a declared prop. *)
Definition passed_over (props : gset string) (line : string) : Prop :=
  is_def_line line = false ∧ is_comment_line line = false
  ∧ matched_prop props line = None.

(** ** Sample pages *)

Module SamplePage.

(** class Plain(rx.Component): no prop at all. *)
Definition Plain_cls : pyclass :=
  PyClass (Some "A plain component.")
    (Sample.text ["class Plain(rx.Component):"; "    pass"]) ∅ ∅ [0].

(** A bare [Var], without type argument. *)
Definition Var_bare : tydesc := TyObj None true [] "reflex.vars.Var".

(** class Loose(rx.Component): a documented prop of type [Var]. *)
Definition Loose_cls : pyclass :=
  PyClass None
    (Sample.text ["class Loose(rx.Component):";
                  "    # The value.";
                  "    value: Var"])
    {["value"]} {["value" := Var_bare]} [0].

Definition world : World :=
  MkWorld
    (λ cls,
       match cls with
       | 7 => Plain_cls
       | 8 => Loose_cls
       | _ => classes Sample.world cls
       end)
    0.

Definition base_triggers : list string :=
  ["on_focus"; "on_blur"; "on_click"; "on_mount"; "on_unmount"].

(** Foo has two triggers of its own besides [on_drop]; Sub has one that
    [EVENTS] does not describe. *)
Definition reflect : Reflect :=
  MkReflect world
    (λ cls,
       match cls with
       | 0 => "Component"
       | 1 => "Foo"
       | 3 => "Bare"
       | 4 => "Sub"
       | 7 => "Plain"
       | 8 => "Loose"
       | _ => "Other"
       end)
    (λ cls,
       match cls with
       | 1 => base_triggers ++ ["on_change"; "on_drop"; "on_submit"]
       | 4 => base_triggers ++ ["on_change"; "on_swipe"]
       | _ => base_triggers
       end)
    base_triggers.

End SamplePage.

(** ** Checks of the primitives on concrete text *)

Example strip_comment_line :
  PyStr.strip_chars "#" (PyStr.strip "    # The name of the prop.  ")
  = " The name of the prop.".
Proof. reflexivity. Qed.

Example splitlines_mixed :
  PyStr.splitlines (String "a" (String "013" (String "010" (String "010"
     (String "b" (String "010" EmptyString))))))
  = ["a"; ""; "b"].
Proof. reflexivity. Qed.

Example search_prop_line :
  Re.search_word_colon "    icon_spacing: Var[int]" = Some "icon_spacing:".
Proof. reflexivity. Qed.

Example search_class_header :
  Re.search_word_colon "class Button(ChakraComponent):" = None.
Proof. reflexivity. Qed.

Example Foo_code :
  code (new_Source Sample.world 1)
  = ["class Foo(rx.Component):"; "    # desc_a"; "    a: Var[int]";
     "    b: str"].
Proof. reflexivity. Qed.

Example Foo_get_props :
  fst (get_props Sample.world 1 (new_Source Sample.world 1))
  = Ret [mkProp "a" Sample.Var_int " desc_a"].
Proof. vm_compute. reflexivity. Qed.

Example Tagged_get_props :
  fst (get_props Sample.world 1 (new_Source Sample.world 2))
  = Ret [mkProp "a" Sample.Var_int " The tag. first second"].
Proof. vm_compute. reflexivity. Qed.

Example Bare_get_props :
  fst (get_props Sample.world 1 (new_Source Sample.world 3))
  = Raise (AssertionError "Expected comment, got tag = 1").
Proof. vm_compute. reflexivity. Qed.

Example Sub_get_props :
  fst (get_props Sample.world 2 (new_Source Sample.world 4))
  = Ret [mkProp "c" Sample.Var_int " desc_c";
         mkProp "a" Sample.Var_int " desc_a"].
Proof. vm_compute. reflexivity. Qed.

Example Headless_get_props :
  fst (get_props Sample.world 1 (new_Source Sample.world 5))
  = Ret [mkProp "a" Sample.Var_int ""].
Proof. vm_compute. reflexivity. Qed.

(** ** Method bodies that only read [self] *)

Section ReadOnly.

Lemma preserves_ret {A} (a : A) : preserves_self (ret a).
Proof. by intros self. Qed.

Lemma preserves_raise {A} (e : exn) : preserves_self (@raise A e).
Proof. by intros self. Qed.

Lemma preserves_bind {A B} (m : M A) (k : A → M B) :
  preserves_self m → (∀ a, preserves_self (k a)) → preserves_self (bind m k).
Proof.
  intros Hm Hk self. unfold bind.
  specialize (Hm self). destruct (m self) as [[a|e|] self']; simpl in *;
    subst; [apply Hk | done | done].
Qed.

Lemma preserves_getitem {A} (l : list A) k : preserves_self (getitem l k).
Proof. intros self. unfold getitem. by destruct (list_getitem l k). Qed.

Lemma preserves_dict_getitem {A} (d : gmap string A) key :
  preserves_self (dict_getitem d key).
Proof. intros self. unfold dict_getitem. by destruct (d !! key). Qed.

Lemma preserves_assert b msg : preserves_self (assert_ b msg).
Proof. intros self. by destruct b. Qed.

Lemma preserves_call_on {A} obj (m : M A) : preserves_self (call_on obj m).
Proof. by intros self. Qed.

Lemma preserves_for_each {A St} (body : A → St → M (flow St)) l :
  (∀ x st, preserves_self (body x st)) →
  ∀ st, preserves_self (for_each body l st).
Proof.
  intros Hbody. induction l as [|x l IH]; intros st; simpl.
  - apply preserves_ret.
  - apply preserves_bind; [apply Hbody|].
    intros [st'|st']; [apply IH | apply preserves_ret].
Qed.

Lemma preserves_scan_line W props il st :
  preserves_self (scan_line W props il st).
Proof.
  destruct il as [i line], st as [comments out]. unfold scan_line.
  repeat case_match; try apply preserves_ret.
  apply preserves_bind; [done|]. intros lines.
  apply preserves_bind; [apply preserves_getitem|]. intros above.
  apply preserves_bind; [apply preserves_assert|]. intros _.
  apply preserves_bind; [done|]. intros cls.
  apply preserves_bind; [apply preserves_dict_getitem|]. intros ty.
  apply preserves_ret.
Qed.

Lemma preserves__get_props W : preserves_self (_get_props W).
Proof.
  unfold _get_props.
  apply preserves_bind; [done|]. intros cls.
  apply preserves_bind; [done|]. intros lines.
  apply preserves_bind; [|intros r; apply preserves_ret].
  apply preserves_for_each. intros il st. apply preserves_scan_line.
Qed.

Lemma preserves_get_props W fuel : preserves_self (get_props W fuel).
Proof.
  destruct fuel as [|fuel]; simpl; [done|].
  apply preserves_bind; [apply preserves__get_props|]. intros props.
  apply preserves_bind; [done|]. intros cls.
  apply preserves_bind; [apply preserves_getitem|]. intros parent_cls.
  case_bool_decide; [|apply preserves_ret].
  apply preserves_bind; [apply preserves_call_on|]. intros inherited.
  apply preserves_ret.
Qed.

Lemma preserves_get_docs W : preserves_self (get_docs W).
Proof.
  unfold get_docs. apply preserves_bind; [done|]. intros cls.
  apply preserves_ret.
Qed.

Lemma run_preserving {A} (m : M A) self :
  preserves_self m → m self = (fst (m self), self).
Proof. intros Hm. specialize (Hm self). by destruct (m self); simpl in *; subst. Qed.

End ReadOnly.

(** ** One iteration of the scan *)

Section ScanLine.

Context (W : World).

Lemma matched_prop_def props line :
  is_def_line line = true → matched_prop props line = None.
Proof. unfold matched_prop. by intros ->. Qed.

Lemma matched_prop_comment props line :
  is_comment_line line = true → matched_prop props line = None.
Proof. unfold matched_prop. intros ->. by case_match. Qed.

(** The outcome of one iteration, by cases on the line. *)
Lemma scan_line_eq i line comments out self :
  scan_line W (own_props W self) (i, line) (comments, out) self
  = (if is_def_line line then Ret (Break (comments, out))
     else if is_comment_line line
     then Ret (Continue (comments ++ [line], out))
     else
       match matched_prop (own_props W self) line with
       | None => Ret (Continue (comments, out))
       | Some prop =>
           match list_getitem (code self) (i - 1) with
           | None => Raise IndexError
           | Some above =>
               if is_comment_line above then
                 match own_fields W self !! prop with
                 | Some ty =>
                     Ret (Continue
                            ([], out ++ [mkProp prop ty (get_comment comments)]))
                 | None => Raise (KeyError prop)
                 end
               else
                 Raise (AssertionError
                          ("Expected comment, got " +:+ PyStr.strip above))
           end
       end,
     self).
Proof.
  unfold scan_line, matched_prop, is_def_line, is_comment_line.
  destruct (Re.search_literal "def " line); [done|].
  destruct (PyStr.startswith "#" (PyStr.strip line)); [done|].
  destruct (Re.search_word_colon line) as [group0|]; [|done].
  case_bool_decide; [|done].
  unfold bind, self_code, getitem, own_fields, self_component, dict_getitem.
  destruct (list_getitem (code self) (i - 1)) as [above|]; [|done].
  cbv beta iota delta [ret raise assert_].
  destruct (PyStr.startswith "#" (PyStr.strip above)); [|done].
  by destruct (cls_fields (classes W (component self)) !! _).
Qed.

End ScanLine.

(** ** The loop *)

Section Loop.

Lemma enumerate_from_app {A} (l1 l2 : list A) i :
  enumerate_from i (l1 ++ l2)
  = enumerate_from i l1 ++ enumerate_from (i + Z.of_nat (length l1)) l2.
Proof.
  revert i. induction l1 as [|x l1 IH]; intros i; simpl.
  - by rewrite Z.add_0_r.
  - rewrite IH. do 3 f_equal. lia.
Qed.

Lemma for_each_app {A St} (body : A → St → M (flow St)) l1 l2 st self :
  for_each body (l1 ++ l2) st self
  = match for_each body l1 st self with
    | (Ret (Continue st'), self') => for_each body l2 st' self'
    | other => other
    end.
Proof.
  revert st self. induction l1 as [|x l1 IH]; intros st self; simpl; [done|].
  unfold bind. destruct (body x st self) as [[[st'|st']|e|] self']; done.
Qed.

Lemma list_getitem_pred {A} (l : list A) (i : nat) :
  (0 < i)%nat → list_getitem l (Z.of_nat i - 1) = l !! (i - 1)%nat.
Proof.
  intros Hi. unfold list_getitem.
  destruct (Z.ltb_spec (Z.of_nat i - 1) 0) as [?|_]; [lia|].
  destruct (Z.ltb_spec (Z.of_nat i - 1) 0) as [?|_]; [lia|]. simpl.
  destruct (Z.leb_spec (Z.of_nat (length l)) (Z.of_nat i - 1)).
  - symmetry. apply lookup_ge_None. lia.
  - f_equal. lia.
Qed.

Lemma list_getitem_last {A} (l : list A) :
  list_getitem l (-1) = last l.
Proof.
  unfold list_getitem. simpl.
  destruct l as [|x l]; [done|].
  destruct (Z.ltb_spec (-1 + Z.of_nat (length (x :: l))) 0) as [H|_];
    [simpl in H; lia|].
  destruct (Z.leb_spec (Z.of_nat (length (x :: l)))
              (-1 + Z.of_nat (length (x :: l)))) as [H|_]; [lia|].
  simpl orb. cbv iota. rewrite last_lookup. f_equal. simpl. lia.
Qed.

Context (W : World) (self : Source).

Local Abbreviation scan := (for_each (scan_line W (own_props W self))).

Lemma _get_props_unfold :
  _get_props W self
  = bind (scan (enumerate (code self)) ([], []))
      (λ r, ret (snd (flow_state r))) self.
Proof. reflexivity. Qed.

Lemma scans_to_0 : scans_to W self 0 ([], []).
Proof. reflexivity. Qed.

(** Once the scan has reached line [i], the whole loop is the loop over the
    remaining lines from the state reached. *)
Lemma scans_to_resume i st :
  scans_to W self i st →
  scan (enumerate (code self)) ([], []) self
  = scan (enumerate_from (Z.of_nat i) (drop i (code self))) st self.
Proof.
  intros Hi. unfold enumerate.
  rewrite <- (take_drop i (code self)) at 1.
  rewrite enumerate_from_app, for_each_app.
  unfold scans_to, enumerate in Hi. rewrite Hi. simpl.
  destruct (decide (i ≤ length (code self))%nat) as [Hle|Hgt].
  - by rewrite length_take_le.
  - rewrite !drop_ge by lia. done.
Qed.

Lemma scans_to_S i st line st' :
  scans_to W self i st →
  code self !! i = Some line →
  scan_line W (own_props W self) (Z.of_nat i, line) st self
  = (Ret (Continue st'), self) →
  scans_to W self (S i) st'.
Proof.
  intros Hi Hline Hstep. unfold scans_to, enumerate in *.
  rewrite (take_S_r _ _ _ Hline), enumerate_from_app, for_each_app, Hi.
  rewrite length_take_le by (apply lookup_lt_Some in Hline; lia).
  rewrite Z.add_0_l. simpl. unfold bind. by rewrite Hstep.
Qed.

(** An exception raised at a line the scan reaches is the outcome of
    [_get_props]. *)
Lemma scan_raises i st line e :
  scans_to W self i st →
  code self !! i = Some line →
  scan_line W (own_props W self) (Z.of_nat i, line) st self
  = (Raise e, self) →
  _get_props W self = (Raise e, self).
Proof.
  intros Hi Hline Hstep.
  rewrite _get_props_unfold. unfold bind at 1.
  rewrite (scans_to_resume _ _ Hi), (drop_S _ _ _ Hline). simpl.
  unfold bind. by rewrite Hstep.
Qed.

(** The loop ends at a method line the scan reaches. *)
Lemma scan_breaks i comments out line :
  scans_to W self i (comments, out) →
  code self !! i = Some line →
  is_def_line line = true →
  _get_props W self = (Ret out, self).
Proof.
  intros Hi Hline Hdef.
  rewrite _get_props_unfold. unfold bind at 1.
  rewrite (scans_to_resume _ _ Hi), (drop_S _ _ _ Hline). simpl.
  unfold bind. by rewrite scan_line_eq, Hdef.
Qed.

(** The loop ends after the last line. *)
Lemma scan_ends comments out :
  scans_to W self (length (code self)) (comments, out) →
  _get_props W self = (Ret out, self).
Proof.
  intros Hi. rewrite _get_props_unfold. unfold bind at 1.
  rewrite (scans_to_resume _ _ Hi), drop_all. done.
Qed.

End Loop.

(** ** The assertion on the line above a prop *)

Section CommentAbove.

Context (W : World) (self : Source).

Local Abbreviation scan := (for_each (scan_line W (own_props W self))).

Lemma matched_prop_Some props line prop :
  matched_prop props line = Some prop →
  is_def_line line = false ∧ is_comment_line line = false ∧ prop ∈ props.
Proof.
  unfold matched_prop. intros H.
  destruct (is_def_line line); [done|].
  destruct (is_comment_line line); [done|].
  destruct (Re.search_word_colon line); [|done].
  case_bool_decide; [|done]. by simplify_eq.
Qed.

(** The iteration on a line matched to a declared prop. *)
Lemma scan_line_matched i line prop comments out :
  matched_prop (own_props W self) line = Some prop →
  scan_line W (own_props W self) (i, line) (comments, out) self
  = (match list_getitem (code self) (i - 1) with
     | None => Raise IndexError
     | Some above =>
         if is_comment_line above then
           match own_fields W self !! prop with
           | Some ty =>
               Ret (Continue
                      ([], out ++ [mkProp prop ty (get_comment comments)]))
           | None => Raise (KeyError prop)
           end
         else
           Raise (AssertionError
                    ("Expected comment, got " +:+ PyStr.strip above))
     end, self).
Proof.
  intros Hm. rewrite scan_line_eq, Hm.
  apply matched_prop_Some in Hm as (-> & -> & _). done.
Qed.

(** The iteration on a line that is neither a method line, nor a comment,
    nor matched to a declared prop: nothing changes. *)
Lemma scan_line_skipped i line st :
  is_def_line line = false →
  is_comment_line line = false →
  matched_prop (own_props W self) line = None →
  scan_line W (own_props W self) (i, line) st self = (Ret (Continue st), self).
Proof.
  intros Hd Hc Hm. destruct st as [comments out].
  by rewrite scan_line_eq, Hd, Hc, Hm.
Qed.

Lemma scan_line_comment i line comments out :
  is_def_line line = false →
  is_comment_line line = true →
  scan_line W (own_props W self) (i, line) (comments, out) self
  = (Ret (Continue (comments ++ [line], out)), self).
Proof. intros Hd Hc. by rewrite scan_line_eq, Hd, Hc. Qed.

Lemma no_def_before_S lines i line :
  no_def_before lines i →
  lines !! i = Some line →
  is_def_line line = false →
  no_def_before lines (S i).
Proof.
  intros Hi Hline Hd j l Hj Hl.
  destruct (decide (j = i)) as [->|]; [by simplify_eq|].
  apply (Hi j); [lia|done].
Qed.

(** When every prop line before the first method line has a comment line
    right above it, the rest of the loop ends normally, or on a declared
    prop that the class has no field for. *)
Lemma commented_scan_outcome rest :
  (∀ i line prop,
     no_def_before (code self) i →
     code self !! i = Some line →
     matched_prop (own_props W self) line = Some prop →
     ∃ above, (0 < i)%nat ∧ code self !! (i - 1)%nat = Some above
              ∧ is_comment_line above = true) →
  ∀ i st,
    drop i (code self) = rest →
    no_def_before (code self) i →
    match fst (scan (enumerate_from (Z.of_nat i) rest) st self) with
    | Ret _ => True
    | Raise (KeyError prop) =>
        prop ∈ own_props W self ∧ own_fields W self !! prop = None
    | _ => False
    end.
Proof.
  intros Hdoc. induction rest as [|line rest IH]; intros i [comments out] Hdrop Hnd;
    [done|].
  assert (Hline : code self !! i = Some line).
  { rewrite <- (Nat.add_0_r i), <- lookup_drop, Hdrop. done. }
  assert (Hrest : drop (S i) (code self) = rest).
  { rewrite (drop_S _ _ _ Hline) in Hdrop. by simplify_eq. }
  simpl. unfold bind. rewrite scan_line_eq.
  destruct (is_def_line line) eqn:Hd; [done|].
  assert (Hnd' := no_def_before_S _ _ _ Hnd Hline Hd).
  replace (Z.of_nat i + 1)%Z with (Z.of_nat (S i)) by lia.
  destruct (is_comment_line line) eqn:Hc; [by apply IH|].
  destruct (matched_prop (own_props W self) line) as [prop|] eqn:Hm;
    [|by apply IH].
  destruct (Hdoc i line prop Hnd Hline Hm) as (above & Hpos & Habove & Hca).
  rewrite (list_getitem_pred _ _ Hpos), Habove, Hca.
  destruct (own_fields W self !! prop) eqn:Hf; [by apply IH|].
  simpl. split; [|done]. by apply matched_prop_Some in Hm as (_ & _ & ?).
Qed.

(** C2. A line that the scan reaches and matches to a declared prop, while
    the stored line right before it is not a comment (its trimmed text does
    not start with '#'), makes [_get_props] raise the assertion error, so no
    record comes out.  Conversely, when every prop line before the first
    method line has a comment line right before it, [_get_props] raises no
    assertion error, and returns its records whenever the declared props all
    are fields of the class. *)
Theorem uncommented_prop_aborts :
  (∀ i st line above prop,
     scans_to W self i st →
     code self !! i = Some line →
     matched_prop (own_props W self) line = Some prop →
     (0 < i)%nat →
     code self !! (i - 1)%nat = Some above →
     is_comment_line above = false →
     _get_props W self
     = (Raise (AssertionError
                 ("Expected comment, got " +:+ PyStr.strip above)), self))
  ∧ ((∀ i line prop,
        no_def_before (code self) i →
        code self !! i = Some line →
        matched_prop (own_props W self) line = Some prop →
        ∃ above, (0 < i)%nat ∧ code self !! (i - 1)%nat = Some above
                 ∧ is_comment_line above = true) →
     (∀ msg, fst (_get_props W self) ≠ Raise (AssertionError msg))
     ∧ (own_props W self ⊆ dom (own_fields W self) →
        ∃ out, _get_props W self = (Ret out, self))).
Proof.
  split.
  - intros i [comments out] line above prop Hi Hline Hm Hpos Habove Hca.
    apply (scan_raises W self i (comments, out) line); [done..|].
    by rewrite (scan_line_matched _ _ _ _ _ Hm), (list_getitem_pred _ _ Hpos),
      Habove, Hca.
  - intros Hdoc.
    pose proof (commented_scan_outcome (code self) Hdoc 0 ([], []) eq_refl) as H.
    specialize (H ltac:(intros j l Hj; lia)).
    pose proof (run_preserving _ self (preserves__get_props W)) as Hrun.
    assert (Hfst : fst (_get_props W self)
                   = match fst (scan (enumerate (code self)) ([], []) self) with
                     | Ret r => Ret (snd (flow_state r))
                     | Raise e => Raise e
                     | OutOfFuel => OutOfFuel
                     end).
    { rewrite _get_props_unfold. unfold bind.
      by destruct (scan _ _ self) as [[r|e|] self']. }
    rewrite Hrun, Hfst.
    change (enumerate (code self)) with (enumerate_from (Z.of_nat 0) (code self)).
    destruct (fst (scan _ _ self)) as [r|[msg| |key]|]; simpl in *; try done.
    + split; [done|]. eauto.
    + split; [done|]. intros Hsub. destruct H as [Hin Hnone].
      apply Hsub, elem_of_dom in Hin. rewrite Hnone in Hin. by destruct Hin.
Qed.

End CommentAbove.

Lemma uncommented_prop_aborts_witness :
  _get_props Sample.world (new_Source Sample.world 3)
  = (Raise (AssertionError "Expected comment, got tag = 1"),
     new_Source Sample.world 3)
  ∧ ∃ out,
      _get_props Sample.world (new_Source Sample.world 1)
      = (Ret out, new_Source Sample.world 1).
Proof.
  split.
  - apply (proj1 (uncommented_prop_aborts Sample.world
                    (new_Source Sample.world 3))
             2%nat ([], []) "    a: Var[int]" "    tag = 1" "a");
      first [vm_compute; reflexivity | lia].
  - apply (proj2 (uncommented_prop_aborts Sample.world
                    (new_Source Sample.world 1))).
    + intros i line prop _ Hline Hm.
      destruct i as [|[|[|[|i]]]]; vm_compute in Hline;
        try discriminate Hline;
        injection Hline as <-; vm_compute in Hm; try discriminate Hm.
      exists "    # desc_a". split; [lia|]. split; vm_compute; reflexivity.
    + change (({["a"]} : gset string)
              ⊆ dom ({["a" := Sample.Var_int; "b" := Sample.str_]}
                       : gmap string tydesc)).
      rewrite !dom_insert_L. set_solver.
Defined.

(** ** Text lemmas *)

Section Text.

Lemma string_app_nil_r (s : string) : s +:+ "" = s.
Proof.
  induction s as [|a s IH]; [done|].
  change (String a (s +:+ "") = String a s). by rewrite IH.
Qed.

Lemma string_app_assoc (s t u : string) : (s +:+ t) +:+ u = s +:+ (t +:+ u).
Proof.
  induction s as [|a s IH]; [done|].
  change (String a ((s +:+ t) +:+ u) = String a (s +:+ (t +:+ u))).
  by rewrite IH.
Qed.

Lemma join_empty_cons x l : PyStr.join "" (x :: l) = x +:+ PyStr.join "" l.
Proof. destruct l; simpl; [by rewrite string_app_nil_r | done]. Qed.

Lemma join_empty_app l1 l2 :
  PyStr.join "" (l1 ++ l2) = PyStr.join "" l1 +:+ PyStr.join "" l2.
Proof.
  induction l1 as [|x l1 IH]; [done|].
  rewrite <- app_comm_cons, !join_empty_cons, IH.
  by rewrite string_app_assoc.
Qed.

Lemma get_comment_app c1 c2 :
  get_comment (c1 ++ c2) = get_comment c1 +:+ get_comment c2.
Proof. unfold get_comment. by rewrite map_app, join_empty_app. Qed.

End Text.

(** ** The pending comments *)

Section Pending.

Context (W : World) (self : Source).

Local Abbreviation scan := (for_each (scan_line W (own_props W self))).

(** A run of comment lines is appended to the pending comments. *)
Lemma scans_comment_block block :
  ∀ pre rest comments out,
    code self = pre ++ block ++ rest →
    Forall scanned_comment block →
    scans_to W self (length pre) (comments, out) →
    scans_to W self (length pre + length block) (comments ++ block, out).
Proof.
  induction block as [|line block IH]; intros pre rest comments out Hcode Hall Hpre.
  - by rewrite Nat.add_0_r, app_nil_r.
  - apply Forall_cons in Hall as [[Hd Hc] Hall].
    assert (Hline : code self !! length pre = Some line).
    { rewrite Hcode. by rewrite lookup_app_r, Nat.sub_diag by lia. }
    pose proof (scans_to_S W self _ _ _ _ Hpre Hline
                  (scan_line_comment W self _ _ _ _ Hd Hc)) as Hnext.
    replace (length pre + length (line :: block))%nat
      with (length (pre ++ [line]) + length block)%nat
      by (rewrite length_app; simpl; lia).
    replace (comments ++ line :: block) with ((comments ++ [line]) ++ block)
      by (by rewrite <- app_assoc).
    apply (IH (pre ++ [line]) rest); [by rewrite <- app_assoc | done |].
    rewrite length_app. simpl. by rewrite Nat.add_1_r.
Qed.

(** The records only grow along the loop. *)
Lemma scan_out_grows lines :
  ∀ i comments out r,
    fst (scan (enumerate_from i lines) (comments, out) self) = Ret r →
    out `prefix_of` snd (flow_state r).
Proof.
  induction lines as [|line lines IH]; intros i comments out r; simpl.
  - intros [= <-]. done.
  - unfold bind. rewrite scan_line_eq.
    destruct (is_def_line line); [by intros [= <-]|].
    destruct (is_comment_line line); [apply IH|].
    destruct (matched_prop _ line) as [prop|]; [|apply IH].
    destruct (list_getitem _ _) as [above|]; [|done].
    destruct (is_comment_line above); [|done].
    destruct (own_fields W self !! prop) as [ty|]; [|done].
    intros Hr. apply IH in Hr. etrans; [|exact Hr]. by apply prefix_app_r.
Qed.

Lemma scans_to_out_prefix i comments out final :
  scans_to W self i (comments, out) →
  _get_props W self = (Ret final, self) →
  out `prefix_of` final.
Proof.
  intros Hi. rewrite _get_props_unfold. unfold bind at 1.
  rewrite (scans_to_resume _ _ _ _ Hi).
  destruct (scan _ _ self) as [[r|e|] self'] eqn:Hscan; [|done..].
  intros [= <- _]. eapply scan_out_grows. by rewrite Hscan.
Qed.

(** Lines of which none before the first method line is matched to a
    declared prop add no record, and the loop over them ends normally. *)
Lemma scan_without_props lines :
  Forall (λ l, matched_prop (own_props W self) l = None) (before_def lines) →
  ∀ i comments out,
    ∃ r,
      scan (enumerate_from i lines) (comments, out) self = (Ret r, self)
      ∧ snd (flow_state r) = out.
Proof.
  induction lines as [|line lines IH]; intros Hnone i comments out.
  - by exists (Continue (comments, out)).
  - cbn [enumerate_from for_each]. unfold bind. rewrite scan_line_eq.
    cbn [before_def] in Hnone.
    destruct (is_def_line line); [by exists (Break (comments, out))|].
    apply Forall_cons in Hnone as [Hline Hnone].
    destruct (is_comment_line line); [by apply IH|].
    rewrite Hline. by apply IH.
Qed.

(** Once the scan has reached a line from which no line before the first
    method line is matched to a declared prop, [_get_props] returns the
    records it has. *)
Lemma _get_props_returns_reached i comments out :
  scans_to W self i (comments, out) →
  Forall (λ l, matched_prop (own_props W self) l = None)
    (before_def (drop i (code self))) →
  _get_props W self = (Ret out, self).
Proof.
  intros Hi Hnone. rewrite _get_props_unfold. unfold bind at 1.
  rewrite (scans_to_resume _ _ _ _ Hi).
  destruct (scan_without_props _ Hnone (Z.of_nat i) comments out)
    as (r & -> & Hr).
  unfold ret. by rewrite Hr.
Qed.

End Pending.

(** ** Descriptions *)

Section Descriptions.

Context (W : World) (self : Source).

(** A prop line right below a run of comment lines emits its record, whose
    description is made of all the pending comments. *)
Lemma scans_documented_prop pre block pline rest comments out prop ty :
  code self = pre ++ block ++ pline :: rest →
  scans_to W self (length pre) (comments, out) →
  block ≠ [] →
  Forall scanned_comment block →
  matched_prop (own_props W self) pline = Some prop →
  own_fields W self !! prop = Some ty →
  scans_to W self (length pre + length block + 1)
    ([], out ++ [mkProp prop ty (get_comment (comments ++ block))]).
Proof.
  intros Hcode Hpre Hne Hall Hm Hf.
  pose proof (scans_comment_block W self block pre (pline :: rest)
                comments out Hcode Hall Hpre) as Hblock.
  destruct (exists_last Hne) as (block' & above & ->).
  apply Forall_app in Hall as [_ Habove].
  apply Forall_singleton in Habove as [_ Hca].
  rewrite length_app in *. simpl length in *.
  assert (Hline : code self !! (length pre + (length block' + 1))%nat
                  = Some pline).
  { rewrite Hcode, lookup_app_r by lia.
    rewrite lookup_app_r by (rewrite length_app; simpl; lia).
    rewrite length_app. simpl.
    by replace (length pre + (length block' + 1) - length pre
                - (length block' + 1))%nat with 0%nat by lia. }
  assert (Habove : code self !! (length pre + (length block' + 1) - 1)%nat
                   = Some above).
  { rewrite Hcode, lookup_app_r by lia.
    rewrite lookup_app_l by (rewrite length_app; simpl; lia).
    rewrite lookup_app_r by lia.
    by replace (length pre + (length block' + 1) - 1 - length pre
                - length block')%nat with 0%nat by lia. }
  rewrite Nat.add_1_r.
  apply (scans_to_S W self _ _ _ _ Hblock Hline).
  rewrite (scan_line_matched W self _ _ _ _ _ Hm).
  rewrite list_getitem_pred by lia.
  by rewrite Habove, Hca, Hf.
Qed.

(** C3, as the code has it. When one or more consecutive comment lines
    directly precede a line matched to a declared prop, the record emitted
    for it has as description the in-order concatenation of the trimmed
    contents, leading and trailing '#' removed, of the comments pending
    since the previous record (or since the start), followed by that of
    those lines; with no comment pending when the first of them is scanned,
    it is the concatenation for those lines alone.  The record is part of
    what [_get_props] returns. *)
Theorem description_concatenates_pending
    pre block pline rest comments out prop ty :
  code self = pre ++ block ++ pline :: rest →
  scans_to W self (length pre) (comments, out) →
  block ≠ [] →
  Forall scanned_comment block →
  matched_prop (own_props W self) pline = Some prop →
  own_fields W self !! prop = Some ty →
  scans_to W self (length pre + length block + 1)
    ([], out ++ [mkProp prop ty
                   (get_comment comments
                    +:+ PyStr.join ""
                          (map (λ c, PyStr.strip_chars "#" (PyStr.strip c))
                             block))])
  ∧ (comments = [] →
     get_comment comments
     +:+ PyStr.join ""
           (map (λ c, PyStr.strip_chars "#" (PyStr.strip c)) block)
     = PyStr.join ""
         (map (λ c, PyStr.strip_chars "#" (PyStr.strip c)) block))
  ∧ (∀ final,
       _get_props W self = (Ret final, self) →
       mkProp prop ty
         (get_comment comments
          +:+ PyStr.join ""
                (map (λ c, PyStr.strip_chars "#" (PyStr.strip c)) block))
       ∈ final).
Proof.
  intros Hcode Hpre Hne Hall Hm Hf.
  pose proof (scans_documented_prop _ _ _ _ _ _ _ _
                Hcode Hpre Hne Hall Hm Hf) as Hrec.
  rewrite get_comment_app in Hrec. unfold get_comment at 2 in Hrec.
  split; [done|]. split; [by intros ->|].
  intros final Hfinal.
  pose proof (scans_to_out_prefix W self _ _ _ _ Hrec Hfinal) as [k ->].
  set_solver.
Qed.

(** A step that emits no record keeps the pending comments. *)
Lemma buffer_kept_without_record i line comments out comments' :
  scan_line W (own_props W self) (i, line) (comments, out) self
  = (Ret (Continue (comments', out)), self) →
  comments `prefix_of` comments'.
Proof.
  rewrite scan_line_eq.
  destruct (is_def_line line); [done|].
  destruct (is_comment_line line); [intros [= <-]; by apply prefix_app_r|].
  destruct (matched_prop _ line) as [prop|]; [|by intros [= <-]].
  destruct (list_getitem _ _) as [above|]; [|done].
  destruct (is_comment_line above); [|done].
  destruct (own_fields W self !! prop) as [ty|]; [|done].
  intros [= _ Hout]. apply (f_equal length) in Hout.
  rewrite length_app in Hout. simpl in Hout. lia.
Qed.

(** C9. A step of the scan that emits no record keeps the pending comments
    (it can only add to them).  So the comment lines above a skipped line,
    one that is no comment and matches no declared prop, stay pending past
    it, and the next emitted record has them in its description, before the
    comments of its own prop.  That record is part of what [_get_props]
    returns, and [_get_props] does return it, after the records found
    before, when no later line before the first method line is matched to a
    declared prop. *)
Theorem skipped_line_keeps_comments
    pre above skipped own pline rest comments out prop ty :
  code self = pre ++ above ++ skipped :: own ++ pline :: rest →
  scans_to W self (length pre) (comments, out) →
  Forall scanned_comment above →
  is_def_line skipped = false →
  is_comment_line skipped = false →
  matched_prop (own_props W self) skipped = None →
  own ≠ [] →
  Forall scanned_comment own →
  matched_prop (own_props W self) pline = Some prop →
  own_fields W self !! prop = Some ty →
  (∀ i line buffer records buffer',
     scan_line W (own_props W self) (i, line) (buffer, records) self
     = (Ret (Continue (buffer', records)), self) →
     buffer `prefix_of` buffer')
  ∧ scans_to W self (length pre + length above + 1) (comments ++ above, out)
  ∧ scans_to W self (length pre + length above + 1 + length own + 1)
      ([], out ++ [mkProp prop ty
                     (get_comment comments +:+ get_comment above
                      +:+ get_comment own)])
  ∧ (∀ final,
       _get_props W self = (Ret final, self) →
       mkProp prop ty
         (get_comment comments +:+ get_comment above +:+ get_comment own)
       ∈ final)
  ∧ (Forall (λ l, matched_prop (own_props W self) l = None)
       (before_def rest) →
     _get_props W self
     = (Ret (out ++ [mkProp prop ty
                       (get_comment comments +:+ get_comment above
                        +:+ get_comment own)]),
        self)).
Proof.
  intros Hcode Hpre Habove Hd Hc Hskip Hne Hown Hm Hf.
  split; [intros *; apply buffer_kept_without_record|].
  pose proof (scans_comment_block W self above pre _ comments out
                Hcode Habove Hpre) as H1.
  assert (Hline : code self !! (length pre + length above)%nat = Some skipped).
  { rewrite Hcode, lookup_app_r by lia. rewrite lookup_app_r by lia.
    by replace (length pre + length above - length pre - length above)%nat
      with 0%nat by lia. }
  pose proof (scans_to_S W self _ _ _ _ H1 Hline
                (scan_line_skipped W self _ _ _ Hd Hc Hskip)) as H2.
  rewrite <- Nat.add_1_r in H2.
  split; [done|].
  assert (H3 : scans_to W self (length pre + length above + 1 + length own + 1)
                 ([], out ++ [mkProp prop ty
                                (get_comment comments +:+ get_comment above
                                 +:+ get_comment own)])).
  { rewrite <- !get_comment_app.
    replace (comments ++ above ++ own) with ((comments ++ above) ++ own)
      by (by rewrite <- app_assoc).
    replace (length pre + length above + 1)%nat
      with (length (pre ++ above ++ [skipped])) in *
      by (rewrite !length_app; simpl; lia).
    apply (scans_documented_prop (pre ++ above ++ [skipped]) own pline rest);
      try done.
    by rewrite Hcode, <- !app_assoc. }
  split; [done|]. split.
  - intros final Hfinal.
    pose proof (scans_to_out_prefix W self _ _ _ _ H3 Hfinal) as [k ->].
    set_solver.
  - intros Hrest. apply (_get_props_returns_reached W self _ _ _ H3).
    replace (drop (length pre + length above + 1 + length own + 1) (code self))
      with rest; [done|].
    rewrite Hcode.
    replace (pre ++ above ++ skipped :: own ++ pline :: rest)
      with ((pre ++ above ++ skipped :: own ++ [pline]) ++ rest)
      by (by rewrite <- !app_assoc; simpl; rewrite <- !app_assoc).
    rewrite drop_app_length'; [done|].
    rewrite !length_app. simpl. rewrite !length_app. simpl. lia.
Qed.

End Descriptions.

(** In class Tagged the comment above [tag], which is no prop, is part of
    the description of [a]: it is not the concatenation of the two comment
    lines right above [a]. *)
Lemma description_of_lines_above_counterexample :
  ∃ record,
    fst (_get_props Sample.world (new_Source Sample.world 2)) = Ret [record]
    ∧ name record = "a"
    ∧ description record = " The tag. first second"
    ∧ description record ≠ get_comment ["    # first"; "    # second"].
Proof.
  exists (mkProp "a" Sample.Var_int " The tag. first second").
  split; [vm_compute; reflexivity|].
  split; [reflexivity|]. split; [reflexivity|].
  vm_compute. discriminate.
Qed.

Lemma description_concatenates_pending_witness :
  scans_to Sample.world (new_Source Sample.world 2) 6
    ([], [mkProp "a" Sample.Var_int " The tag. first second"]).
Proof.
  apply (proj1 (description_concatenates_pending Sample.world
                  (new_Source Sample.world 2)
                  ["class Tagged(rx.Component):"; "    # The tag.";
                   "    tag = 1"]
                  ["    # first"; "    # second"]
                  "    a: Var[int]"
                  ["    def render(self):"; "        # not a prop";
                   "        a: int = 0"]
                  ["    # The tag."] [] "a" Sample.Var_int
                  ltac:(vm_compute; reflexivity)
                  ltac:(vm_compute; reflexivity)
                  ltac:(discriminate)
                  ltac:(repeat constructor)
                  ltac:(vm_compute; reflexivity)
                  ltac:(vm_compute; reflexivity))).
Defined.

Lemma skipped_line_keeps_comments_witness :
  scans_to Sample.world (new_Source Sample.world 2) 3
    (["    # The tag."], [])
  ∧ scans_to Sample.world (new_Source Sample.world 2) 6
      ([], [mkProp "a" Sample.Var_int " The tag. first second"])
  ∧ (∀ final,
       _get_props Sample.world (new_Source Sample.world 2)
       = (Ret final, new_Source Sample.world 2) →
       mkProp "a" Sample.Var_int " The tag. first second" ∈ final)
  ∧ _get_props Sample.world (new_Source Sample.world 2)
    = (Ret [mkProp "a" Sample.Var_int " The tag. first second"],
       new_Source Sample.world 2).
Proof.
  pose proof (proj2 (skipped_line_keeps_comments Sample.world
                  (new_Source Sample.world 2)
                  ["class Tagged(rx.Component):"]
                  ["    # The tag."]
                  "    tag = 1"
                  ["    # first"; "    # second"]
                  "    a: Var[int]"
                  ["    def render(self):"; "        # not a prop";
                   "        a: int = 0"]
                  [] [] "a" Sample.Var_int
                  ltac:(vm_compute; reflexivity)
                  ltac:(vm_compute; reflexivity)
                  ltac:(repeat constructor)
                  ltac:(vm_compute; reflexivity)
                  ltac:(vm_compute; reflexivity)
                  ltac:(vm_compute; reflexivity)
                  ltac:(discriminate)
                  ltac:(repeat constructor)
                  ltac:(vm_compute; reflexivity)
                  ltac:(vm_compute; reflexivity)))
    as (H1 & H2 & H3 & H4).
  split; [exact H1|]. split; [exact H2|]. split; [exact H3|].
  apply H4. constructor.
Defined.

(** ** The end of the scan *)

Section StopsAtDef.

Context (W : World).

Lemma scan_run props lines st self :
  for_each (scan_line W props) lines st self
  = (fst (for_each (scan_line W props) lines st self), self).
Proof.
  apply run_preserving, preserves_for_each.
  intros il st'. apply preserves_scan_line.
Qed.

Lemma _get_props_loop_result self :
  _get_props W self
  = (loop_result
       (fst (for_each (scan_line W (own_props W self))
               (enumerate (code self)) ([], []) self)), self).
Proof.
  rewrite _get_props_unfold. unfold bind. rewrite scan_run.
  by destruct (fst _) as [r|e|].
Qed.

(** Two [Source]s of one class run the loop alike over the same lines, as
    long as they agree on the line looked at above each prop line. *)
Lemma scan_agree self1 self2 lines :
  component self1 = component self2 →
  ∀ (i : nat) st,
    (∀ (k : nat) line,
       lines !! k = Some line →
       is_Some (matched_prop (own_props W self1) line) →
       list_getitem (code self1) (Z.of_nat (i + k) - 1)
       = list_getitem (code self2) (Z.of_nat (i + k) - 1)) →
    fst (for_each (scan_line W (own_props W self1))
           (enumerate_from (Z.of_nat i) lines) st self1)
    = fst (for_each (scan_line W (own_props W self2))
             (enumerate_from (Z.of_nat i) lines) st self2).
Proof.
  intros Hcls.
  assert (Hprops : own_props W self2 = own_props W self1)
    by (unfold own_props; by rewrite Hcls).
  assert (Hfields : own_fields W self2 = own_fields W self1)
    by (unfold own_fields; by rewrite Hcls).
  induction lines as [|line lines IH]; intros i [comments out] Hsame; [done|].
  simpl. unfold bind. rewrite !scan_line_eq, Hprops, Hfields.
  replace (Z.of_nat i + 1)%Z with (Z.of_nat (S i)) by lia.
  assert (Hrest : ∀ st',
            fst (for_each (scan_line W (own_props W self1))
                   (enumerate_from (Z.of_nat (S i)) lines) st' self1)
            = fst (for_each (scan_line W (own_props W self1))
                     (enumerate_from (Z.of_nat (S i)) lines) st' self2)).
  { intros st'. rewrite <- Hprops at 2. apply IH. intros k l Hl Hm.
    replace (S i + k)%nat with (i + S k)%nat by lia. by apply (Hsame (S k) l). }
  destruct (is_def_line line); [done|].
  destruct (is_comment_line line); [apply Hrest|].
  destruct (matched_prop (own_props W self1) line) as [prop|] eqn:Hm;
    [|apply Hrest].
  specialize (Hsame 0%nat line eq_refl ltac:(by rewrite Hm)).
  rewrite Nat.add_0_r in Hsame. rewrite <- Hsame.
  destruct (list_getitem (code self1) _) as [above|]; [|done].
  destruct (is_comment_line above); [|done].
  destruct (own_fields W self1 !! prop); [apply Hrest|done].
Qed.

(** The loop over lines that end with a method line is the loop over the
    lines before it. *)
Lemma _get_props_upto_def cls pre d post :
  is_def_line d = true →
  fst (_get_props W (mkSource cls (pre ++ d :: post)))
  = loop_result
      (fst (for_each (scan_line W (cls_props (classes W cls)))
              (enumerate pre) ([], []) (mkSource cls (pre ++ d :: post)))).
Proof.
  intros Hd. rewrite _get_props_loop_result.
  unfold enumerate. cbn [fst code].
  rewrite enumerate_from_app, for_each_app.
  change (cls_props (classes W cls))
    with (own_props W (mkSource cls (pre ++ d :: post))).
  pose proof (scan_run (own_props W (mkSource cls (pre ++ d :: post)))
                (enumerate_from 0 pre) ([], [])
                (mkSource cls (pre ++ d :: post))) as Hrun.
  destruct (for_each _ (enumerate_from 0 pre) _ _)
    as [[[[comments out]|st]|e|] self']; try done.
  simpl in Hrun. injection Hrun as ->.
  simpl. unfold bind. by rewrite scan_line_eq, Hd.
Qed.

(** C5. The scan stops at a method line: with [d] a method line, the
    records [_get_props] returns never depend on what is stored at or after
    [d], and unless the very first stored line is itself a prop line (whose
    assertion then reads the last stored line), the whole outcome is the one
    of scanning the lines before [d] alone. *)
Theorem scan_stops_at_def cls pre d post :
  is_def_line d = true →
  (∀ post' out out',
     fst (_get_props W (mkSource cls (pre ++ d :: post))) = Ret out →
     fst (_get_props W (mkSource cls (pre ++ d :: post'))) = Ret out' →
     out = out')
  ∧ ((∀ first pre',
        pre = first :: pre' →
        matched_prop (cls_props (classes W cls)) first = None) →
     fst (_get_props W (mkSource cls (pre ++ d :: post)))
     = fst (_get_props W (mkSource cls pre))).
Proof.
  intros Hd. split.
  - intros post' out out'. rewrite !_get_props_upto_def by done.
    destruct pre as [|first pre']; [by intros [= <-] [= <-]|].
    assert (Hrest : ∀ st,
              fst (for_each (scan_line W (cls_props (classes W cls)))
                     (enumerate_from (Z.of_nat 1) pre') st
                     (mkSource cls ((first :: pre') ++ d :: post)))
              = fst (for_each (scan_line W (cls_props (classes W cls)))
                       (enumerate_from (Z.of_nat 1) pre') st
                       (mkSource cls ((first :: pre') ++ d :: post')))).
    { intros st.
      apply (scan_agree (mkSource cls ((first :: pre') ++ d :: post))
               (mkSource cls ((first :: pre') ++ d :: post')) pre' eq_refl 1).
      intros k line Hline _. rewrite !list_getitem_pred by lia. cbn [code].
      apply lookup_lt_Some in Hline.
      rewrite !(lookup_app_l (first :: pre')) by (simpl; lia). done. }
    unfold enumerate. cbn [enumerate_from for_each]. unfold bind.
    change (0 + 1)%Z with (Z.of_nat 1).
    change (cls_props (classes W cls))
      with (own_props W (mkSource cls ((first :: pre') ++ d :: post))) at 1.
    change (cls_props (classes W cls))
      with (own_props W (mkSource cls ((first :: pre') ++ d :: post'))) at 2.
    rewrite !scan_line_eq. unfold own_props, own_fields. simpl component.
    destruct (is_def_line first); [by intros [= <-] [= <-]|].
    destruct (is_comment_line first); [rewrite Hrest; congruence|].
    destruct (matched_prop _ first) as [prop|]; [|rewrite Hrest; congruence].
    destruct (list_getitem _ _) as [above|]; [|done].
    destruct (list_getitem _ _) as [above'|]; [|by destruct (is_comment_line above)].
    destruct (is_comment_line above); [|done].
    destruct (is_comment_line above'); [|by destruct (_ !! prop)].
    destruct (_ !! prop); [rewrite Hrest; congruence|done].
  - intros Hfirst. rewrite _get_props_upto_def, _get_props_loop_result by done.
    cbn [fst code]. f_equal. unfold enumerate.
    apply (scan_agree (mkSource cls (pre ++ d :: post)) (mkSource cls pre)
             pre eq_refl 0).
    intros k line Hline Hm. destruct k as [|k].
    + destruct pre as [|first pre']; [done|]. simpl in Hline. simplify_eq.
      unfold own_props in Hm. simpl in Hm.
      rewrite (Hfirst line pre' eq_refl) in Hm. by destruct Hm.
    + rewrite !list_getitem_pred by lia. cbn [code].
      apply lookup_lt_Some in Hline.
      rewrite lookup_app_l by lia. done.
Qed.

End StopsAtDef.

Lemma scan_stops_at_def_witness :
  fst (_get_props Sample.world
         (mkSource 2
            (["class Tagged(rx.Component):"; "    # The tag."; "    tag = 1";
              "    # first"; "    # second"; "    a: Var[int]"]
             ++ "    def render(self):"
                :: ["        # not a prop"; "        a: int = 0"])))
  = fst (_get_props Sample.world
           (mkSource 2
              ["class Tagged(rx.Component):"; "    # The tag."; "    tag = 1";
               "    # first"; "    # second"; "    a: Var[int]"]))
  ∧ [mkProp "a" Sample.Var_int " The tag. first second"]
    = [mkProp "a" Sample.Var_int " The tag. first second"].
Proof.
  pose proof (scan_stops_at_def Sample.world 2
                ["class Tagged(rx.Component):"; "    # The tag.";
                 "    tag = 1"; "    # first"; "    # second";
                 "    a: Var[int]"]
                "    def render(self):"
                ["        # not a prop"; "        a: int = 0"]
                ltac:(vm_compute; reflexivity)) as [Hsame Hpre].
  split.
  - apply Hpre. intros first pre' [= <- _]. vm_compute. reflexivity.
  - apply (Hsame []); vm_compute; reflexivity.
Defined.

(** ** The stored lines and the line above *)

Section StoredLines.

Lemma pieces_not_nil s : pieces s ≠ [].
Proof. destruct s as [|c s]; simpl; [done|]. by repeat case_match. Qed.

Lemma snoc_app cur c p : PyStr.snoc cur c +:+ p = cur +:+ String c p.
Proof.
  induction cur as [|a cur IH]; [done|].
  change (String a (PyStr.snoc cur c +:+ p) = String a (cur +:+ String c p)).
  by rewrite IH.
Qed.

Local Abbreviation keep := (List.filter (λ l, negb (PyStr.is_empty l))).

(** [splitlines], once its empty lines are dropped, cuts the text at every
    line boundary character: pairing a carriage return with its line feed
    only spares an empty line. *)
Lemma splitlines_from_pieces s :
  ∀ cur after_cr,
    (after_cr = true → cur = "") →
    keep (PyStr.splitlines_from s cur after_cr)
    = keep (match pieces s with
            | p :: ps => (cur +:+ p) :: ps
            | [] => []
            end).
Proof.
  induction s as [|c s IH]; intros cur after_cr Hcr.
  - simpl. rewrite string_app_nil_r. by destruct cur.
  - assert (Hfresh : ∀ b, keep (PyStr.splitlines_from s "" b) = keep (pieces s)).
    { intros b. rewrite IH by done.
      pose proof (pieces_not_nil s). by destruct (pieces s). }
    cbn [PyStr.splitlines_from pieces].
    destruct (after_cr && bool_decide (c = "010"%char)) eqn:Hlf.
    + apply andb_true_iff in Hlf as [-> Hc]. apply bool_decide_eq_true in Hc.
      subst c. rewrite (Hcr eq_refl), Hfresh. done.
    + destruct (PyStr.is_linebreak c).
      * simpl. rewrite string_app_nil_r, Hfresh. done.
      * rewrite IH by done.
        pose proof (pieces_not_nil s). destruct (pieces s); [done|].
        by rewrite snoc_app.
Qed.

Lemma nonempty_by_len l :
  (0 <? PyStr.len l)%Z = negb (PyStr.is_empty l).
Proof. by destruct l. Qed.

Lemma new_Source_code W cls :
  code (new_Source W cls) = nonempty_lines (cls_source (classes W cls)).
Proof.
  unfold new_Source, nonempty_lines. simpl.
  rewrite (filter_ext _ _ nonempty_by_len).
  unfold PyStr.splitlines. rewrite splitlines_from_pieces by done.
  pose proof (pieces_not_nil (cls_source (classes W cls))).
  by destruct (pieces _).
Qed.

(** The line [code[i - 1]] for a valid index [i]: the one before, or the
    last one when [i] is 0. *)
Lemma list_getitem_above {A} (l : list A) (i : nat) x :
  l !! i = Some x →
  ∃ above,
    l !! (match i with O => length l - 1 | S j => j end)%nat = Some above
    ∧ list_getitem l (Z.of_nat i - 1) = Some above.
Proof.
  intros Hi. destruct i as [|j].
  - change (Z.of_nat 0 - 1)%Z with (-1)%Z. rewrite list_getitem_last.
    destruct (last l) as [above|] eqn:Hlast.
    + exists above. split; [|done].
      by rewrite last_lookup in Hlast; rewrite <- Hlast; f_equal; lia.
    + apply last_None in Hlast. by subst l.
  - rewrite list_getitem_pred by lia.
    replace (S j - 1)%nat with j by lia.
    apply lookup_lt_Some in Hi.
    destruct (lookup_lt_is_Some_2 l j ltac:(lia)) as [above Habove].
    eauto.
Qed.

End StoredLines.

Section LineAbove.

Context (W : World) (self : Source).

(** The loop never fails on the index of the line above. *)
Lemma scan_no_IndexError rest :
  ∀ i st,
    drop i (code self) = rest →
    fst (for_each (scan_line W (own_props W self))
           (enumerate_from (Z.of_nat i) rest) st self)
    ≠ Raise IndexError.
Proof.
  induction rest as [|line rest IH]; intros i [comments out] Hdrop; [done|].
  assert (Hline : code self !! i = Some line).
  { rewrite <- (Nat.add_0_r i), <- lookup_drop, Hdrop. done. }
  assert (Hrest : drop (S i) (code self) = rest).
  { rewrite (drop_S _ _ _ Hline) in Hdrop. by simplify_eq. }
  simpl. unfold bind. rewrite scan_line_eq.
  replace (Z.of_nat i + 1)%Z with (Z.of_nat (S i)) by lia.
  destruct (is_def_line line); [done|].
  destruct (is_comment_line line); [by apply IH|].
  destruct (matched_prop _ line) as [prop|]; [|by apply IH].
  destruct (list_getitem_above _ _ _ Hline) as (above & _ & ->).
  destruct (is_comment_line above); [|done].
  destruct (own_fields W self !! prop); [by apply IH|done].
Qed.

(** C10. A new [Source] stores exactly the non-empty lines of the class's
    source, in order.  The line the assertion reads for a prop line stored
    at index [i] is the stored line at index [i - 1], which for [i = 0] is
    the last stored line; it always exists, so that [_get_props] never fails
    on a missing predecessor.  For [_get_props] itself: when the first
    stored line is a prop line, it raises the assertion error on the last
    stored line if that is no comment, and otherwise goes on and returns the
    prop's record, with an empty description, first; when a prop line the
    scan reaches at an index [i] above 0 has a stored line at [i - 1] that
    is no comment, it raises the assertion error on that line. *)
Theorem line_above_is_previous_or_last :
  (∀ cls,
     code (new_Source W cls) = nonempty_lines (cls_source (classes W cls)))
  ∧ (∀ (i : nat) line prop comments out,
       code self !! i = Some line →
       matched_prop (own_props W self) line = Some prop →
       ∃ above,
         code self !! (match i with
                       | O => length (code self) - 1
                       | S j => j
                       end)%nat = Some above
         ∧ scan_line W (own_props W self) (Z.of_nat i, line)
             (comments, out) self
           = (if is_comment_line above then
                match own_fields W self !! prop with
                | Some ty =>
                    Ret (Continue
                           ([], out ++ [mkProp prop ty (get_comment comments)]))
                | None => Raise (KeyError prop)
                end
              else
                Raise (AssertionError
                         ("Expected comment, got " +:+ PyStr.strip above)),
              self))
  ∧ fst (_get_props W self) ≠ Raise IndexError
  ∧ (∀ first rest prop,
       code self = first :: rest →
       matched_prop (own_props W self) first = Some prop →
       ∃ last_line,
         last (code self) = Some last_line
         ∧ (is_comment_line last_line = false →
            _get_props W self
            = (Raise (AssertionError
                        ("Expected comment, got " +:+ PyStr.strip last_line)),
               self))
         ∧ (is_comment_line last_line = true →
            ∀ ty, own_fields W self !! prop = Some ty →
              (∀ final,
                 _get_props W self = (Ret final, self) →
                 ∃ more, final = mkProp prop ty "" :: more)
              ∧ (Forall (λ l, matched_prop (own_props W self) l = None)
                   (before_def rest) →
                 _get_props W self = (Ret [mkProp prop ty ""], self))))
  ∧ (∀ (i : nat) st line above prop,
       scans_to W self i st →
       code self !! i = Some line →
       matched_prop (own_props W self) line = Some prop →
       (0 < i)%nat →
       code self !! (i - 1)%nat = Some above →
       is_comment_line above = false →
       _get_props W self
       = (Raise (AssertionError
                   ("Expected comment, got " +:+ PyStr.strip above)), self)).
Proof.
  split; [apply new_Source_code|]. split.
  { intros i line prop comments out Hline Hm.
    destruct (list_getitem_above _ _ _ Hline) as (above & Habove & Hget).
    exists above. split; [done|].
    by rewrite (scan_line_matched W self _ _ _ _ _ Hm), Hget. }
  split.
  { rewrite _get_props_loop_result. cbn [fst].
    pose proof (scan_no_IndexError (code self) 0 ([], []) eq_refl) as H.
    change (enumerate_from (Z.of_nat 0) (code self))
      with (enumerate (code self)) in H.
    by destruct (fst _) as [r|[]|]. }
  split.
  - intros first rest prop Hcode Hm.
    assert (Hline : code self !! 0%nat = Some first) by (by rewrite Hcode).
    destruct (list_getitem_above _ _ _ Hline) as (last_line & Hlast & Hget).
    exists last_line. split.
    { rewrite last_lookup. rewrite <- Hlast. f_equal. lia. }
    pose proof (scan_line_matched W self (Z.of_nat 0) first prop [] [] Hm)
      as Hstep.
    rewrite Hget in Hstep. split.
    + intros Hc. rewrite Hc in Hstep.
      exact (scan_raises W self 0 _ _ _ (scans_to_0 W self) Hline Hstep).
    + intros Hc ty Hty. rewrite Hc, Hty in Hstep.
      pose proof (scans_to_S W self 0 _ _ _ (scans_to_0 W self) Hline Hstep)
        as H1.
      split.
      * intros final Hfinal.
        destruct (scans_to_out_prefix W self _ _ _ _ H1 Hfinal) as [more ->].
        by exists more.
      * intros Hrest. apply (_get_props_returns_reached W self _ _ _ H1).
        by rewrite Hcode.
  - intros i [comments out] line above prop Hi Hline Hm Hpos Habove Hca.
    apply (scan_raises W self i (comments, out) line); [done..|].
    by rewrite (scan_line_matched _ _ _ _ _ _ _ Hm),
      (list_getitem_pred _ _ Hpos), Habove, Hca.
Qed.

End LineAbove.

Lemma line_above_is_previous_or_last_witness :
  (∃ above,
     code (new_Source Sample.world 5) !! 1%nat = Some above
     ∧ scan_line Sample.world
         (own_props Sample.world (new_Source Sample.world 5))
         (0%Z, "a: Var[int]") ([], []) (new_Source Sample.world 5)
       = (Ret (Continue ([], [mkProp "a" Sample.Var_int ""])),
          new_Source Sample.world 5))
  ∧ _get_props Sample.world (new_Source Sample.world 5)
    = (Ret [mkProp "a" Sample.Var_int ""], new_Source Sample.world 5)
  ∧ _get_props Sample.world (mkSource 1 ["    a: Var[int]"; "    b: str"])
    = (Raise (AssertionError "Expected comment, got b: str"),
       mkSource 1 ["    a: Var[int]"; "    b: str"])
  ∧ _get_props Sample.world (new_Source Sample.world 3)
    = (Raise (AssertionError "Expected comment, got tag = 1"),
       new_Source Sample.world 3).
Proof.
  split.
  { destruct (proj1 (proj2 (line_above_is_previous_or_last Sample.world
                              (new_Source Sample.world 5)))
                0%nat "a: Var[int]" "a" [] []
                ltac:(vm_compute; reflexivity)
                ltac:(vm_compute; reflexivity))
      as (above & Habove & Hstep).
    exists above. split; [exact Habove|].
    vm_compute in Habove. injection Habove as <-. exact Hstep. }
  split.
  { destruct (proj1 (proj2 (proj2 (proj2
                (line_above_is_previous_or_last Sample.world
                   (new_Source Sample.world 5)))))
                "a: Var[int]" ["# trailing"] "a"
                ltac:(vm_compute; reflexivity)
                ltac:(vm_compute; reflexivity))
      as (last_line & Hlast & _ & Hcomment).
    vm_compute in Hlast. injection Hlast as <-.
    apply (proj2 (Hcomment ltac:(vm_compute; reflexivity) Sample.Var_int
                    ltac:(vm_compute; reflexivity))).
    repeat constructor. }
  split.
  { destruct (proj1 (proj2 (proj2 (proj2
                (line_above_is_previous_or_last Sample.world
                   (mkSource 1 ["    a: Var[int]"; "    b: str"])))))
                "    a: Var[int]" ["    b: str"] "a"
                ltac:(reflexivity)
                ltac:(vm_compute; reflexivity))
      as (last_line & Hlast & Hplain & _).
    vm_compute in Hlast. injection Hlast as <-.
    apply Hplain. vm_compute. reflexivity. }
  apply (proj2 (proj2 (proj2 (proj2
           (line_above_is_previous_or_last Sample.world
              (new_Source Sample.world 3)))))
           2%nat ([], []) "    a: Var[int]" "    tag = 1" "a");
    first [vm_compute; reflexivity | lia].
Defined.

(** ** Inherited props *)

Section Inheritance.

Context (W : World).

Lemma _get_props_run self :
  _get_props W self = (fst (_get_props W self), self).
Proof. apply run_preserving, preserves__get_props. Qed.

Lemma get_props_run fuel self :
  get_props W fuel self = (fst (get_props W fuel self), self).
Proof. apply run_preserving, preserves_get_props. Qed.

Lemma new_Source_component cls : component (new_Source W cls) = cls.
Proof. reflexivity. Qed.

Lemma scan_no_OutOfFuel props self lines :
  ∀ i st,
    fst (for_each (scan_line W props) (enumerate_from i lines) st self)
    ≠ OutOfFuel.
Proof.
  induction lines as [|line lines IH]; intros i st; [done|].
  simpl. unfold bind.
  pose proof (run_preserving _ self (preserves_scan_line W props (i, line) st))
    as Hrun.
  destruct (scan_line W props (i, line) st self) as [[[st'|st']|e|] self'] eqn:Hstep;
    simpl in Hrun; try done.
  - injection Hrun as ->. apply IH.
  - exfalso. clear Hrun. revert Hstep. destruct st as [comments out].
    unfold scan_line.
    repeat case_match; try done.
    unfold bind, self_code, getitem, assert_, self_component, dict_getitem.
    repeat (case_match; simplify_eq/=; try done).
Qed.

Lemma _get_props_no_OutOfFuel self : fst (_get_props W self) ≠ OutOfFuel.
Proof.
  rewrite _get_props_loop_result. cbn [fst].
  pose proof (scan_no_OutOfFuel (own_props W self) self (code self) 0%Z ([], []))
    as H.
  by destruct (fst _) as [r|e|].
Qed.

(** One level of [get_props], by cases on the first base class. *)
Lemma get_props_S fuel self :
  get_props W (S fuel) self
  = (match fst (_get_props W self) with
     | Ret props =>
         match cls_bases (classes W (component self)) with
         | [] => Raise IndexError
         | parent_cls :: _ =>
             if bool_decide (parent_cls ≠ rx_Component W) then
               match fst (get_props W fuel (new_Source W parent_cls)) with
               | Ret inherited => Ret (props ++ inherited)
               | Raise e => Raise e
               | OutOfFuel => OutOfFuel
               end
             else Ret props
         end
     | Raise e => Raise e
     | OutOfFuel => OutOfFuel
     end, self).
Proof.
  cbn [get_props]. unfold bind at 1. rewrite _get_props_run.
  destruct (fst (_get_props W self)) as [props|e|]; [|done..].
  unfold bind, self_component, getitem, list_getitem. simpl.
  destruct (cls_bases (classes W (component self))) as [|parent_cls bases];
    [done|]. simpl.
  case_bool_decide; [|done].
  unfold call_on. simpl. by destruct (fst _).
Qed.

(** C4. For a class whose first base class is not the root component class,
    [get_props] returns the records of the class itself followed by the
    records [get_props] returns for that base class. *)
Theorem get_props_appends_base fuel self parent_cls bases own inherited :
  cls_bases (classes W (component self)) = parent_cls :: bases →
  parent_cls ≠ rx_Component W →
  fst (_get_props W self) = Ret own →
  fst (get_props W fuel (new_Source W parent_cls)) = Ret inherited →
  get_props W (S fuel) self = (Ret (own ++ inherited), self).
Proof.
  intros Hbases Hne Hown Hinh.
  rewrite get_props_S, Hown, Hbases, Hinh.
  by rewrite bool_decide_eq_true_2.
Qed.

(** C8. For a class whose chain of first base classes reaches the root
    component class in [n] steps, [get_props] ends, with records or with an
    exception: any fuel above [n] gives that same outcome. *)
Theorem get_props_terminates self n :
  inherit_depth W (component self) n →
  ∃ r, r ≠ OutOfFuel
       ∧ ∀ fuel, (n < fuel)%nat → get_props W fuel self = (r, self).
Proof.
  remember (component self) as cls eqn:Hcls. intros Hdepth.
  revert self Hcls.
  induction Hdepth as [cls base bases Hbases Hroot
                      |cls base bases n Hbases Hne Hdepth IH];
    intros self ->.
  - exists (fst (_get_props W self)). split; [apply _get_props_no_OutOfFuel|].
    intros [|fuel] Hfuel; [lia|].
    rewrite get_props_S, Hbases.
    rewrite bool_decide_eq_false_2 by (intros Hne; by apply Hne).
    by destruct (fst (_get_props W self)).
  - destruct (IH (new_Source W base) eq_refl) as (r' & Hr' & Hfuel').
    exists (match fst (_get_props W self) with
            | Ret props =>
                match r' with
                | Ret inherited => Ret (props ++ inherited)
                | Raise e => Raise e
                | OutOfFuel => OutOfFuel
                end
            | Raise e => Raise e
            | OutOfFuel => OutOfFuel
            end).
    split.
    + pose proof (_get_props_no_OutOfFuel self).
      destruct (fst (_get_props W self)); [|done..]. by destruct r'.
    + intros [|fuel] Hfuel; [lia|].
      rewrite get_props_S, Hbases, bool_decide_eq_true_2 by done.
      by rewrite (Hfuel' fuel) by lia.
Qed.

(** C7. [get_docs], [_get_props] and [get_props] leave the [component] and
    the [code] of the [Source] they are called on as they were, whether
    they return or raise. *)
Theorem Source_fields_unchanged fuel self :
  component (snd (get_docs W self)) = component self
  ∧ code (snd (get_docs W self)) = code self
  ∧ component (snd (_get_props W self)) = component self
  ∧ code (snd (_get_props W self)) = code self
  ∧ component (snd (get_props W fuel self)) = component self
  ∧ code (snd (get_props W fuel self)) = code self.
Proof.
  rewrite (preserves_get_docs W self), (preserves__get_props W self),
    (preserves_get_props W fuel self).
  done.
Qed.

End Inheritance.

Lemma get_props_appends_base_witness :
  get_props Sample.world 2 (new_Source Sample.world 4)
  = (Ret ([mkProp "c" Sample.Var_int " desc_c"]
          ++ [mkProp "a" Sample.Var_int " desc_a"]),
     new_Source Sample.world 4).
Proof.
  apply (get_props_appends_base Sample.world 1 (new_Source Sample.world 4)
           1%nat []);
    first [vm_compute; reflexivity | discriminate].
Defined.

Lemma Sub_inherit_depth : inherit_depth Sample.world 4 1.
Proof.
  apply (depth_step Sample.world 4 1%nat [] 0); [reflexivity|discriminate|].
  apply (depth_root Sample.world 1 0%nat []); reflexivity.
Defined.

Lemma get_props_terminates_witness :
  ∃ r, r ≠ OutOfFuel
       ∧ ∀ fuel, (1 < fuel)%nat →
           get_props Sample.world fuel (new_Source Sample.world 4)
           = (r, new_Source Sample.world 4).
Proof.
  apply (get_props_terminates Sample.world (new_Source Sample.world 4) 1).
  exact Sub_inherit_depth.
Defined.

(** ** Display colours *)

Section Colors.

(** C6. In [prop_docs], once the type to display is obtained, a type object
    without [__name__] does not make the call fail: the object is printed,
    it stays the label of the badge, and the colour is "gray"; and a type
    whose name is not a key of [TYPE_COLORS] gets "gray" too, with nothing
    printed. *)
Theorem prop_docs_fallback_color prop ty :
  (if ty_is_var (type_ prop)
   then list_getitem (ty_args (type_ prop)) 0
   else Some (type_ prop)) = Some ty →
  (ty_name ty = None →
   prop_docs prop
   = ([ty_repr ty],
      Ret [rx_td (rx_code (name prop) "#333");
           rx_td (rx_badge (VType ty) "gray" "solid");
           rx_td (markdown_memo (description prop))]))
  ∧ (∀ n,
       ty_name ty = Some n →
       TYPE_COLORS !! n = None →
       prop_docs prop
       = ([],
          Ret [rx_td (rx_code (name prop) "#333");
               rx_td (rx_badge (VStr n) "gray" "solid");
               rx_td (markdown_memo (description prop))])).
Proof.
  intros Hty. unfold prop_docs. rewrite Hty. split.
  - by intros ->.
  - intros n -> Hn. unfold dict_get. by rewrite Hn.
Qed.

End Colors.

Lemma prop_docs_fallback_color_witness :
  prop_docs (mkProp "value" Sample.Var_Union "The value.")
  = (["typing.Union[str, int]"],
     Ret [rx_td (rx_code "value" "#333");
          rx_td (rx_badge (VType Sample.Union_) "gray" "solid");
          rx_td (markdown_memo "The value.")])
  ∧ prop_docs (mkProp "color" Sample.Color_ "The color.")
    = ([],
       Ret [rx_td (rx_code "color" "#333");
            rx_td (rx_badge (VStr "Color") "gray" "solid");
            rx_td (markdown_memo "The color.")]).
Proof.
  split.
  - apply (proj1 (prop_docs_fallback_color
                    (mkProp "value" Sample.Var_Union "The value.")
                    Sample.Union_ ltac:(reflexivity)));
      reflexivity.
  - apply (proj2 (prop_docs_fallback_color
                    (mkProp "color" Sample.Color_ "The color.")
                    Sample.Color_ ltac:(reflexivity)) "Color");
      [reflexivity | vm_compute; reflexivity].
Defined.

(** ** What the records and the exceptions of the scan are *)

Section ScanOutcome.

Context (W : World) (self : Source).

Lemma list_getitem_elem_of {A} (l : list A) k x :
  list_getitem l k = Some x → x ∈ l.
Proof.
  unfold list_getitem. case_match; [done|].
  intros Hx. by apply list_elem_of_lookup_2 in Hx.
Qed.

Lemma scan_records_documented lines :
  ∀ i comments out r,
    Forall (documents_prop W self) out →
    fst (for_each (scan_line W (own_props W self))
           (enumerate_from i lines) (comments, out) self) = Ret r →
    Forall (documents_prop W self) (snd (flow_state r)).
Proof.
  induction lines as [|line lines IH]; intros i comments out r Hout; simpl.
  - by intros [= <-].
  - unfold bind. rewrite scan_line_eq.
    destruct (is_def_line line); [by intros [= <-]|].
    destruct (is_comment_line line); [by apply IH|].
    destruct (matched_prop _ line) as [prop|] eqn:Hm; [|by apply IH].
    destruct (list_getitem _ _) as [above|]; [|done].
    destruct (is_comment_line above); [|done].
    destruct (own_fields W self !! prop) as [ty|] eqn:Hf; [|done].
    apply IH. apply Forall_app. split; [done|].
    apply Forall_singleton. split; [|done].
    by apply matched_prop_Some in Hm as (_ & _ & ?).
Qed.

(** X1. Every record [_get_props] returns is for a declared prop of the
    class, and carries the type the class gives to that field. *)
Theorem records_document_declared_props out :
  fst (_get_props W self) = Ret out →
  ∀ r, r ∈ out →
    name r ∈ own_props W self
    ∧ own_fields W self !! name r = Some (type_ r).
Proof.
  rewrite _get_props_loop_result. cbn [fst].
  destruct (fst _) as [r|e|] eqn:Hscan; [|done..].
  intros [= <-] rec Hrec.
  apply scan_records_documented in Hscan; [|by apply Forall_nil].
  by apply (proj1 (Forall_forall _ _) Hscan).
Qed.

Lemma scan_exceptions lines :
  ∀ i st e,
    fst (for_each (scan_line W (own_props W self))
           (enumerate_from i lines) st self) = Raise e →
    (∃ above, above ∈ code self ∧ is_comment_line above = false
              ∧ e = AssertionError
                      ("Expected comment, got " +:+ PyStr.strip above))
    ∨ (∃ prop, e = KeyError prop ∧ prop ∈ own_props W self
               ∧ own_fields W self !! prop = None)
    ∨ e = IndexError.
Proof.
  induction lines as [|line lines IH]; intros i [comments out] e; simpl; [done|].
  unfold bind. rewrite scan_line_eq.
  destruct (is_def_line line); [done|].
  destruct (is_comment_line line); [by apply IH|].
  destruct (matched_prop _ line) as [prop|] eqn:Hm; [|by apply IH].
  destruct (list_getitem _ _) as [above|] eqn:Habove;
    [|intros [= <-]; by right; right].
  destruct (is_comment_line above) eqn:Hca.
  - destruct (own_fields W self !! prop) as [ty|] eqn:Hf; [by apply IH|].
    intros [= <-]. right. left. exists prop.
    by apply matched_prop_Some in Hm as (_ & _ & ?).
  - intros [= <-]. left. exists above.
    split; [by eapply list_getitem_elem_of|done].
Qed.

(** X2. [_get_props] raises only: the assertion error, whose message names
    the trimmed text of a stored line that is not a comment; or a key error
    for a declared prop that the class has no field for. *)
Theorem _get_props_exceptions e :
  fst (_get_props W self) = Raise e →
  (∃ above, above ∈ code self ∧ is_comment_line above = false
            ∧ e = AssertionError
                    ("Expected comment, got " +:+ PyStr.strip above))
  ∨ (∃ prop, e = KeyError prop ∧ prop ∈ own_props W self
             ∧ own_fields W self !! prop = None).
Proof.
  intros He.
  assert (Hidx : e ≠ IndexError).
  { intros ->. revert He. rewrite _get_props_loop_result. cbn [fst].
    pose proof (scan_no_IndexError W self (code self) 0 ([], []) eq_refl) as H.
    change (enumerate_from (Z.of_nat 0) (code self))
      with (enumerate (code self)) in H.
    by destruct (fst _) as [r|[]|]. }
  revert He. rewrite _get_props_loop_result. cbn [fst].
  destruct (fst _) as [r|e'|] eqn:Hscan; [done| |done].
  intros [= ->]. apply scan_exceptions in Hscan as [?|[?|?]]; auto. done.
Qed.

End ScanOutcome.

Lemma records_document_declared_props_witness :
  "a" ∈ own_props Sample.world (new_Source Sample.world 1)
  ∧ own_fields Sample.world (new_Source Sample.world 1) !! "a"
    = Some Sample.Var_int.
Proof.
  apply (records_document_declared_props Sample.world
           (new_Source Sample.world 1)
           [mkProp "a" Sample.Var_int " desc_a"]
           ltac:(vm_compute; reflexivity)
           (mkProp "a" Sample.Var_int " desc_a")).
  apply list_elem_of_singleton. reflexivity.
Defined.

Lemma _get_props_exceptions_witness :
  (∃ above,
     above ∈ code (new_Source Sample.world 3)
     ∧ is_comment_line above = false
     ∧ AssertionError "Expected comment, got tag = 1"
       = AssertionError ("Expected comment, got " +:+ PyStr.strip above))
  ∨ (∃ prop,
       AssertionError "Expected comment, got tag = 1" = KeyError prop
       ∧ prop ∈ own_props Sample.world (new_Source Sample.world 3)
       ∧ own_fields Sample.world (new_Source Sample.world 3) !! prop = None).
Proof.
  apply (_get_props_exceptions Sample.world (new_Source Sample.world 3)).
  vm_compute. reflexivity.
Defined.

(** ** The two searches *)

Section Searches.

Lemma string_app_cons a (s t : string) :
  String a s +:+ t = String a (s +:+ t).
Proof. reflexivity. Qed.

Lemma startswith_spec p s :
  PyStr.startswith p s = true ↔ ∃ b, s = p +:+ b.
Proof.
  revert s. induction p as [|a p IH]; intros s; simpl.
  - split; [by exists s|done].
  - destruct s as [|c s].
    + split; [done|]. by intros [b Hb].
    + rewrite andb_true_iff, bool_decide_eq_true, IH. split.
      * intros [-> [b ->]]. by exists b.
      * intros [b Hb]. rewrite string_app_cons in Hb.
        injection Hb as -> ->. eauto.
Qed.

(** [re.search] of a literal finds exactly its occurrences. *)
Lemma search_literal_spec lit s :
  Re.search_literal lit s = true ↔ ∃ a b, s = a +:+ lit +:+ b.
Proof.
  induction s as [|c s IH].
  - simpl. rewrite orb_false_r, startswith_spec. split.
    + intros [b ->]. by exists "", b.
    + intros ([|c a] & b & Hab); [by exists b|done].
  - cbn [Re.search_literal]. rewrite orb_true_iff, startswith_spec, IH. split.
    + intros [[b ->]|(a & b & ->)]; [by exists "", b|].
      by exists (String c a), b.
    + intros ([|c' a] & b & Hab); [left; by exists b|].
      rewrite string_app_cons in Hab. injection Hab as -> ->.
      right. by exists a, b.
Qed.

Lemma match_word_colon_sound s m :
  Re.match_word_colon s = Some m →
  ∃ w b, s = w +:+ ":" +:+ b ∧ m = w +:+ ":" ∧ w ≠ ""
         ∧ all_chars PyStr.is_word w = true.
Proof.
  revert m. induction s as [|c s IH]; intros m; simpl; [done|].
  destruct (PyStr.is_word c) eqn:Hc; [|done].
  destruct (Re.match_word_colon s) as [m'|].
  - intros [= <-]. destruct (IH m' eq_refl) as (w & b & -> & -> & Hw & Hall).
    exists (String c w), b. repeat split; [done|]. simpl. by rewrite Hc.
  - destruct s as [|c' s]; [done|].
    destruct (decide (c' = ":"%char)) as [->|Hne].
    + intros [= <-]. exists (String c ""), s. repeat split; [done|].
      simpl. by rewrite Hc.
    + intros Hm. exfalso. revert Hm.
      destruct c' as [[] [] [] [] [] [] [] []]; done.
Qed.

Lemma match_word_colon_complete w b :
  w ≠ "" → all_chars PyStr.is_word w = true →
  Re.match_word_colon (w +:+ ":" +:+ b) = Some (w +:+ ":").
Proof.
  induction w as [|c w IH]; [done|]. intros _. simpl all_chars.
  intros [Hc Hall]%andb_true_iff.
  rewrite (string_app_cons c w). cbn [Re.match_word_colon]. rewrite Hc.
  destruct w as [|c' w]; [done|].
  by rewrite IH.
Qed.

Lemma word_is_no_colon c : PyStr.is_word c = true → c ≠ ":"%char.
Proof. by intros Hc ->. Qed.

Lemma rstrip_by_marker f w x :
  w ≠ "" → all_chars (λ c, negb (f c)) w = true → f x = true →
  PyStr.rstrip_by f (w +:+ String x "") = w.
Proof.
  intros Hw Hall Hx. induction w as [|c w IH]; [done|].
  simpl in Hall. apply andb_true_iff in Hall as [Hc Hall].
  apply negb_true_iff in Hc.
  rewrite (string_app_cons c w). cbn [PyStr.rstrip_by].
  destruct w as [|c' w].
  - change ("" +:+ String x "") with (String x ""). simpl. by rewrite Hx, Hc.
  - by rewrite IH.
Qed.

Lemma strip_colon_of_match w :
  w ≠ "" → all_chars PyStr.is_word w = true →
  PyStr.strip_chars ":" (w +:+ ":") = w.
Proof.
  intros Hw Hall. unfold PyStr.strip_chars, PyStr.strip_by.
  assert (Hnone : all_chars (λ c, negb (PyStr.mem_char c ":")) w = true).
  { clear Hw. induction w as [|c w IH]; [done|].
    cbn [all_chars] in *. apply andb_true_iff in Hall as [Hc Hall].
    rewrite IH by done. rewrite andb_true_r.
    cbn [PyStr.mem_char].
    destruct (bool_decide (":"%char = c)) eqn:Heq; [|done].
    apply bool_decide_eq_true in Heq. by destruct (word_is_no_colon c Hc). }
  destruct w as [|c w]; [done|].
  rewrite (string_app_cons c w). cbn [PyStr.lstrip_by].
  pose proof Hnone as Hc. cbn [all_chars] in Hc.
  apply andb_true_iff in Hc as [Hc _].
  apply negb_true_iff in Hc. rewrite Hc.
  rewrite <- (string_app_cons c w). by apply rstrip_by_marker.
Qed.

Lemma match_word_colon_at_colon c b :
  PyStr.is_word c = true →
  Re.match_word_colon (String c (String ":" b)) = Some (String c ":").
Proof. intros Hc. cbn [Re.match_word_colon]. by rewrite Hc. Qed.

Lemma search_word_colon_sound line group0 :
  Re.search_word_colon line = Some group0 →
  ∃ a w b,
    line = a +:+ w +:+ ":" +:+ b ∧ group0 = w +:+ ":" ∧ w ≠ ""
    ∧ all_chars PyStr.is_word w = true
    ∧ match last_char a with
      | Some c => PyStr.is_word c = false
      | None => True
      end
    ∧ ∀ a1 c a2, a = a1 +:+ String c (String ":" a2) → PyStr.is_word c = false.
Proof.
  induction line as [|c line IH]; [done|].
  cbn [Re.search_word_colon].
  destruct (Re.match_word_colon (String c line)) as [m|] eqn:Hm.
  - intros [= <-].
    destruct (match_word_colon_sound _ _ Hm) as (w & b & Hs & -> & Hw & Hall).
    exists "", w, b. repeat split; try done. by intros [|??] ???.
  - intros Hs.
    destruct (IH Hs) as (a & w & b & -> & -> & Hw & Hall & Hlast & Hleft).
    exists (String c a), w, b. repeat split; try done.
    + destruct a as [|c' a]; [|done]. simpl.
      destruct (PyStr.is_word c) eqn:Hc; [|done].
      change ("" +:+ w +:+ ":" +:+ b) with (w +:+ ":" +:+ b) in Hm.
      cbn [Re.match_word_colon] in Hm.
      by rewrite Hc, match_word_colon_complete in Hm.
    + intros [|c1 a1] c2 a2 Ha.
      * change ("" +:+ String c2 (String ":" a2))
          with (String c2 (String ":" a2)) in Ha.
        injection Ha as -> ->.
        destruct (PyStr.is_word c2) eqn:Hc; [|done].
        rewrite (string_app_cons ":" a2) in Hm.
        by rewrite match_word_colon_at_colon in Hm.
      * rewrite (string_app_cons c1 a1) in Ha. injection Ha as -> ->.
        by eapply Hleft.
Qed.

Lemma search_word_colon_suffix a s :
  Re.search_word_colon (a +:+ s) = None → Re.search_word_colon s = None.
Proof.
  induction a as [|c a IH]; [done|].
  rewrite (string_app_cons c a). cbn [Re.search_word_colon].
  destruct (Re.match_word_colon _); [done|]. apply IH.
Qed.

Lemma match_word_colon_occurrence s m :
  Re.match_word_colon s = Some m →
  ∃ a c b, s = a +:+ String c (String ":" b) ∧ PyStr.is_word c = true.
Proof.
  revert m. induction s as [|c s IH]; intros m; cbn [Re.match_word_colon];
    [done|].
  destruct (PyStr.is_word c) eqn:Hc; [|done].
  destruct (Re.match_word_colon s) as [m'|].
  - intros _. destruct (IH m' eq_refl) as (a & c' & b & -> & Hc').
    by exists (String c a), c', b.
  - destruct s as [|c' s]; [done|].
    destruct (decide (c' = ":"%char)) as [->|Hne].
    + intros _. by exists "", c, s.
    + intros Hm. exfalso. revert Hm.
      destruct c' as [[] [] [] [] [] [] [] []]; done.
Qed.

Lemma search_word_colon_occurrence s m :
  Re.search_word_colon s = Some m →
  ∃ a c b, s = a +:+ String c (String ":" b) ∧ PyStr.is_word c = true.
Proof.
  induction s as [|c0 s IH]; [done|]. cbn [Re.search_word_colon].
  destruct (Re.match_word_colon (String c0 s)) as [m'|] eqn:Hm.
  - intros _. by eapply match_word_colon_occurrence.
  - intros Hs. destruct (IH Hs) as (a & c & b & -> & Hc).
    by exists (String c0 a), c, b.
Qed.

(** X4. When [\w+:] is found in a line, the match is a whole identifier
    and its colon: a non-empty run of word characters that no word character
    precedes, ending at the first place of the line where a word character
    is followed by ':'; stripping the colon gives the identifier.  Nothing
    is found exactly when no word character of the line is followed by
    ':'. *)
Theorem matched_name_is_first_identifier line :
  (∀ group0,
     Re.search_word_colon line = Some group0 →
     ∃ a w b,
       line = a +:+ w +:+ ":" +:+ b
       ∧ group0 = w +:+ ":"
       ∧ PyStr.strip_chars ":" group0 = w
       ∧ w ≠ ""
       ∧ all_chars PyStr.is_word w = true
       ∧ match last_char a with
         | Some c => PyStr.is_word c = false
         | None => True
         end
       ∧ ∀ a1 c a2,
           a = a1 +:+ String c (String ":" a2) → PyStr.is_word c = false)
  ∧ (Re.search_word_colon line = None
     ↔ ∀ a c b,
         line = a +:+ String c (String ":" b) → PyStr.is_word c = false).
Proof.
  split.
  - intros group0 Hs.
    destruct (search_word_colon_sound _ _ Hs)
      as (a & w & b & -> & -> & Hw & Hall & Hlast & Hleft).
    exists a, w, b. repeat split; try done.
    by apply strip_colon_of_match.
  - split.
    + intros Hnone a c b ->. apply search_word_colon_suffix in Hnone.
      cbn [Re.search_word_colon] in Hnone.
      destruct (PyStr.is_word c) eqn:Hc; [|done].
      by rewrite match_word_colon_at_colon in Hnone.
    + intros Hno. destruct (Re.search_word_colon line) as [m|] eqn:Hs; [|done].
      destruct (search_word_colon_occurrence _ _ Hs) as (a & c & b & -> & Hc).
      by rewrite (Hno a c b eq_refl) in Hc.
Qed.

End Searches.

Lemma matched_name_is_first_identifier_witness :
  ∃ a w b,
    "    icon_spacing: Dict[str, int]" = a +:+ w +:+ ":" +:+ b
    ∧ "icon_spacing:" = w +:+ ":"
    ∧ PyStr.strip_chars ":" "icon_spacing:" = w
    ∧ w ≠ ""
    ∧ all_chars PyStr.is_word w = true
    ∧ match last_char a with
      | Some c => PyStr.is_word c = false
      | None => True
      end
    ∧ ∀ a1 c a2,
        a = a1 +:+ String c (String ":" a2) → PyStr.is_word c = false.
Proof.
  apply (proj1 (matched_name_is_first_identifier
                  "    icon_spacing: Dict[str, int]") "icon_spacing:").
  vm_compute. reflexivity.
Defined.

Section DefLine.

Context (W : World) (self : Source).

(** X3. A stored line in which the text "def " occurs anywhere, be it in a
    comment or in a declaration, ends the scan when it is reached:
    [_get_props] returns the records found so far. *)
Theorem def_text_anywhere_ends_scan i comments out a b :
  scans_to W self i (comments, out) →
  code self !! i = Some (a +:+ "def " +:+ b) →
  _get_props W self = (Ret out, self).
Proof.
  intros Hi Hline. apply (scan_breaks W self i comments out _ Hi Hline).
  apply search_literal_spec. by exists a, b.
Qed.

End DefLine.

Lemma def_text_anywhere_ends_scan_witness :
  _get_props Sample2.world (new_Source Sample2.world 1)
  = (Ret [mkProp "a" Sample.Var_int " The a."], new_Source Sample2.world 1).
Proof.
  apply (def_text_anywhere_ends_scan Sample2.world
           (new_Source Sample2.world 1) 3 []
           [mkProp "a" Sample.Var_int " The a."]
           "    # see " "render below");
    vm_compute; reflexivity.
Defined.

(** ** What a [Source] stores of the text *)

Section StoredText.

Local Abbreviation keep := (List.filter (λ l, negb (PyStr.is_empty l))).
Local Abbreviation no_break := (λ c, negb (PyStr.is_linebreak c)).

Lemma pieces_no_break s :
  Forall (λ p, all_chars no_break p = true) (pieces s).
Proof.
  induction s as [|c s IH]; simpl.
  - by apply Forall_singleton.
  - destruct (PyStr.is_linebreak c) eqn:Hc; [by apply Forall_cons|].
    destruct (pieces s) as [|p ps]; [apply Forall_singleton; simpl; by rewrite Hc|].
    apply Forall_cons in IH as [Hp Hps].
    apply Forall_cons. split; [|done]. simpl. by rewrite Hc.
Qed.

Lemma join_pieces s : PyStr.join "" (pieces s) = keep_chars no_break s.
Proof.
  induction s as [|c s IH]; [done|]. cbn [pieces keep_chars].
  destruct (PyStr.is_linebreak c); cbn [negb].
  - by rewrite join_empty_cons.
  - pose proof (pieces_not_nil s). destruct (pieces s) as [|p ps]; [done|].
    rewrite join_empty_cons in *. by rewrite string_app_cons, IH.
Qed.

Lemma join_keep l : PyStr.join "" (keep l) = PyStr.join "" l.
Proof.
  induction l as [|x l IH]; [done|]. cbn [List.filter].
  destruct x as [|c x]; cbn [PyStr.is_empty negb].
  - by rewrite join_empty_cons.
  - by rewrite !join_empty_cons, IH.
Qed.

(** X5. The lines a new [Source] stores are non-empty and hold no line
    boundary character, and put end to end they are the class's source
    without its line boundary characters: nothing else is lost. *)
Theorem stored_lines_cover_the_source W cls :
  (∀ line,
     line ∈ code (new_Source W cls) →
     line ≠ "" ∧ all_chars (λ c, negb (PyStr.is_linebreak c)) line = true)
  ∧ PyStr.join "" (code (new_Source W cls))
    = keep_chars (λ c, negb (PyStr.is_linebreak c))
        (cls_source (classes W cls)).
Proof.
  rewrite new_Source_code. unfold nonempty_lines. split.
  - intros line Hline. apply list_elem_of_In, filter_In in Hline as [Hin Hne].
    split; [by destruct line|].
    apply list_elem_of_In in Hin.
    exact (proj1 (Forall_forall _ _) (pieces_no_break _) line Hin).
  - by rewrite join_keep, join_pieces.
Qed.

Lemma pieces_break_swap a b brk1 brk2 :
  PyStr.is_linebreak brk1 = true → PyStr.is_linebreak brk2 = true →
  pieces (a +:+ String brk1 b) = pieces (a +:+ String brk2 b).
Proof.
  intros H1 H2. induction a as [|c a IH].
  - change (pieces (String brk1 b) = pieces (String brk2 b)).
    simpl. by rewrite H1, H2.
  - rewrite !(string_app_cons c a). simpl. by rewrite IH.
Qed.

Lemma pieces_break_double a b brk1 brk2 :
  PyStr.is_linebreak brk1 = true → PyStr.is_linebreak brk2 = true →
  ∃ p ps ps',
    pieces (a +:+ String brk1 (String brk2 b)) = p :: ps
    ∧ pieces (a +:+ String brk1 b) = p :: ps'
    ∧ keep ps = keep ps'.
Proof.
  intros H1 H2. induction a as [|c a IH].
  - exists "", ("" :: pieces b), (pieces b).
    change (pieces (String brk1 (String brk2 b)) = "" :: "" :: pieces b
            ∧ pieces (String brk1 b) = "" :: pieces b
            ∧ keep ("" :: pieces b) = keep (pieces b)).
    simpl. by rewrite H1, H2.
  - destruct IH as (p & ps & ps' & Hd & Hs & Hk).
    rewrite !(string_app_cons c a). simpl. rewrite Hd, Hs.
    destruct (PyStr.is_linebreak c).
    + exists "", (p :: ps), (p :: ps'). repeat split.
      simpl. by rewrite Hk.
    + by exists (String c p), ps, ps'.
Qed.

(** X6. The stored lines do not depend on which line boundary character
    ends a line, nor on a further boundary right after one (a blank line,
    or the line feed of a CR LF pair). *)
Theorem stored_lines_ignore_line_endings W cls1 cls2 a b brk1 brk2 :
  PyStr.is_linebreak brk1 = true →
  PyStr.is_linebreak brk2 = true →
  cls_source (classes W cls1) = a +:+ String brk1 b →
  cls_source (classes W cls2) = a +:+ String brk2 b
  ∨ cls_source (classes W cls2) = a +:+ String brk1 (String brk2 b) →
  code (new_Source W cls1) = code (new_Source W cls2).
Proof.
  intros H1 H2 Hs1 Hs2. rewrite !new_Source_code. unfold nonempty_lines.
  rewrite Hs1. destruct Hs2 as [->| ->].
  - by rewrite (pieces_break_swap a b brk1 brk2).
  - destruct (pieces_break_double a b brk1 brk2 H1 H2)
      as (p & ps & ps' & -> & -> & Hk).
    simpl. by rewrite Hk.
Qed.

End StoredText.

Lemma stored_lines_cover_the_source_witness :
  "    # desc_a" ≠ ""
  ∧ all_chars (λ c, negb (PyStr.is_linebreak c)) "    # desc_a" = true.
Proof.
  apply (proj1 (stored_lines_cover_the_source Sample.world 1)).
  apply list_elem_of_lookup_2 with 1%nat. vm_compute. reflexivity.
Defined.

Lemma stored_lines_ignore_line_endings_witness :
  code (new_Source Sample2.world 1) = code (new_Source Sample2.world 2).
Proof.
  apply (stored_lines_ignore_line_endings Sample2.world 1 2
           "class Noted(rx.Component):"
           (Sample.text ["    # The a."; "    a: Var[int]";
                         "    # see def render below"; "    # The b.";
                         "    b: Var[int]"])
           "010" "010");
    [reflexivity | reflexivity | reflexivity | right; reflexivity].
Defined.

(** ** Indentation *)

Section Indentation.

Local Abbreviation L := (PyStr.lstrip_by PyStr.is_space).

Lemma space_is_no_word c : PyStr.is_space c = true → PyStr.is_word c = false.
Proof. destruct c as [[] [] [] [] [] [] [] []]; done. Qed.

Lemma space_is_no_d c : PyStr.is_space c = true → "d"%char ≠ c.
Proof. by intros Hc <-. Qed.

Lemma is_def_line_lstrip l : is_def_line l = is_def_line (L l).
Proof.
  induction l as [|c l IH]; [done|]. cbn [PyStr.lstrip_by].
  destruct (PyStr.is_space c) eqn:Hc; [|done].
  rewrite <- IH. unfold is_def_line. cbn [Re.search_literal PyStr.startswith].
  by rewrite (bool_decide_eq_false_2 _ (space_is_no_d c Hc)).
Qed.

Lemma search_word_colon_lstrip l :
  Re.search_word_colon l = Re.search_word_colon (L l).
Proof.
  induction l as [|c l IH]; [done|]. cbn [PyStr.lstrip_by].
  destruct (PyStr.is_space c) eqn:Hc; [|done].
  rewrite <- IH. cbn [Re.search_word_colon Re.match_word_colon].
  by rewrite (space_is_no_word c Hc).
Qed.

Lemma lstrip_idem l : L (L l) = L l.
Proof.
  induction l as [|c l IH]; [done|]. cbn [PyStr.lstrip_by].
  destruct (PyStr.is_space c) eqn:Hc; [done|].
  cbn [PyStr.lstrip_by]. by rewrite Hc.
Qed.

Lemma strip_lstrip l : PyStr.strip l = PyStr.strip (L l).
Proof. unfold PyStr.strip, PyStr.strip_by. by rewrite lstrip_idem. Qed.

Lemma same_indent_tests props l l' :
  same_modulo_indent l l' →
  is_def_line l = is_def_line l'
  ∧ PyStr.strip l = PyStr.strip l'
  ∧ is_comment_line l = is_comment_line l'
  ∧ matched_prop props l = matched_prop props l'.
Proof.
  unfold same_modulo_indent. intros HL.
  assert (Hd : is_def_line l = is_def_line l')
    by (by rewrite (is_def_line_lstrip l), (is_def_line_lstrip l'), HL).
  assert (Hs : PyStr.strip l = PyStr.strip l')
    by (by rewrite (strip_lstrip l), (strip_lstrip l'), HL).
  assert (Hc : is_comment_line l = is_comment_line l')
    by (unfold is_comment_line; by rewrite Hs).
  repeat split; try done.
  unfold matched_prop. rewrite Hd, Hc.
  by rewrite (search_word_colon_lstrip l), (search_word_colon_lstrip l'), HL.
Qed.

Lemma same_indent_get_comment cs cs' :
  Forall2 same_modulo_indent cs cs' → get_comment cs = get_comment cs'.
Proof.
  intros H. unfold get_comment. f_equal.
  induction H as [|c c' cs cs' Hc _ IH]; [done|]. simpl.
  by rewrite IH, (proj1 (proj2 (same_indent_tests ∅ _ _ Hc))).
Qed.

Lemma same_indent_getitem (l l' : list string) k :
  Forall2 same_modulo_indent l l' →
  option_Forall2 same_modulo_indent (list_getitem l k) (list_getitem l' k).
Proof.
  intros H. unfold list_getitem. rewrite <- (Forall2_length _ _ _ H).
  case_match; [constructor|]. by apply Forall2_lookup.
Qed.

Context (W : World) (cls : class_id) (lines0 lines0' : list string).
Hypothesis Hcode : Forall2 same_modulo_indent lines0 lines0'.

Lemma scan_line_eq_mk i line comments out stored :
  scan_line W (cls_props (classes W cls)) (i, line) (comments, out)
    (mkSource cls stored)
  = (if is_def_line line then Ret (Break (comments, out))
     else if is_comment_line line
     then Ret (Continue (comments ++ [line], out))
     else
       match matched_prop (cls_props (classes W cls)) line with
       | None => Ret (Continue (comments, out))
       | Some prop =>
           match list_getitem stored (i - 1) with
           | None => Raise IndexError
           | Some above =>
               if is_comment_line above then
                 match cls_fields (classes W cls) !! prop with
                 | Some ty =>
                     Ret (Continue
                            ([], out ++ [mkProp prop ty (get_comment comments)]))
                 | None => Raise (KeyError prop)
                 end
               else
                 Raise (AssertionError
                          ("Expected comment, got " +:+ PyStr.strip above))
           end
       end,
     mkSource cls stored).
Proof. exact (scan_line_eq W i line comments out (mkSource cls stored)). Qed.

Lemma same_indent_scan lines lines' :
  Forall2 same_modulo_indent lines lines' →
  ∀ i comments comments' out,
    Forall2 same_modulo_indent comments comments' →
    loop_result
      (fst (for_each (scan_line W (cls_props (classes W cls)))
              (enumerate_from i lines) (comments, out) (mkSource cls lines0)))
    = loop_result
        (fst (for_each (scan_line W (cls_props (classes W cls)))
                (enumerate_from i lines') (comments', out)
                (mkSource cls lines0'))).
Proof.
  induction 1 as [|line line' lines lines' Hline _ IH];
    intros i comments comments' out Hcs; [done|].
  cbn [enumerate_from for_each]. unfold bind.
  rewrite !scan_line_eq_mk.
  destruct (same_indent_tests (cls_props (classes W cls)) _ _ Hline)
    as (<- & _ & <- & <-).
  destruct (is_def_line line); [done|].
  destruct (is_comment_line line).
  { apply IH. apply Forall2_app; [done|]. by apply Forall2_cons. }
  destruct (matched_prop _ line) as [prop|]; [|by apply IH].
  destruct (same_indent_getitem lines0 lines0' (i - 1) Hcode)
    as [above above' Habove|]; [|done].
  destruct (same_indent_tests ∅ _ _ Habove) as (_ & <- & <- & _).
  destruct (is_comment_line above); [|done].
  rewrite (same_indent_get_comment _ _ Hcs).
  destruct (cls_fields (classes W cls) !! prop); [|done].
  by apply IH.
Qed.

End Indentation.

(** X7. [_get_props] does not depend on how the stored lines are indented:
    two [Source]s of one class whose lines differ only by leading whitespace
    return the same records or raise the same exception. *)
Theorem indentation_does_not_matter W cls lines lines' :
  Forall2 same_modulo_indent lines lines' →
  fst (_get_props W (mkSource cls lines))
  = fst (_get_props W (mkSource cls lines')).
Proof.
  intros H. rewrite !_get_props_loop_result. cbn [fst code].
  by apply same_indent_scan.
Qed.

Lemma indentation_does_not_matter_witness :
  fst (_get_props Sample.world
         (mkSource 1 ["class Foo(rx.Component):"; "    # desc_a";
                      "    a: Var[int]"; "    b: str"]))
  = fst (_get_props Sample.world
           (mkSource 1 ["class Foo(rx.Component):"; "  # desc_a";
                        "        a: Var[int]"; "b: str"])).
Proof.
  apply (indentation_does_not_matter Sample.world 1).
  repeat constructor.
Defined.

(** ** Along the chain of base classes *)

Section Chain.

Context (W : World).

(** X8. For a class at [n] steps from the root component class, when the
    class and each of the [n] classes above it parse, [get_props] returns
    their records put end to end, the class first and each base class
    after the class derived from it. *)
Theorem get_props_concatenates_chain cls n outs :
  inherit_depth W cls n →
  Forall2 (λ c out, fst (_get_props W (new_Source W c)) = Ret out)
    (cls :: ancestors W cls n) outs →
  get_props W (S n) (new_Source W cls)
  = (Ret (concat outs), new_Source W cls).
Proof.
  intros Hdepth. revert outs.
  induction Hdepth as [cls base bases Hbases Hroot
                      |cls base bases n Hbases Hne Hdepth IH];
    intros outs Houts.
  - apply Forall2_cons_inv_l in Houts as (own & outs' & Hown & Hrest & ->).
    apply Forall2_nil_inv_l in Hrest as ->.
    rewrite get_props_S, Hown, new_Source_component.
    rewrite Hbases, bool_decide_eq_false_2 by (intros Hne; by apply Hne).
    simpl. by rewrite app_nil_r.
  - apply Forall2_cons_inv_l in Houts as (own & outs' & Hown & Hrest & ->).
    cbn [ancestors] in Hrest. rewrite Hbases in Hrest.
    rewrite get_props_S, Hown, new_Source_component.
    rewrite Hbases, bool_decide_eq_true_2 by done.
    by rewrite (IH _ Hrest).
Qed.

(** X9. When a class of the chain fails to parse while the classes below
    it parse, [get_props] on the class at the bottom raises that class's
    exception: a missing comment in a base class breaks every class derived
    from it. *)
Theorem ancestor_failure_propagates cls n k failing e :
  inherit_depth W cls n →
  (cls :: ancestors W cls n) !! k = Some failing →
  Forall (λ c, ∃ out, fst (_get_props W (new_Source W c)) = Ret out)
    (take k (cls :: ancestors W cls n)) →
  fst (_get_props W (new_Source W failing)) = Raise e →
  get_props W (S n) (new_Source W cls) = (Raise e, new_Source W cls).
Proof.
  intros Hdepth. revert k.
  induction Hdepth as [cls base bases Hbases Hroot
                      |cls base bases n Hbases Hne Hdepth IH];
    intros k Hk Hok Hfail.
  - destruct k as [|k]; [|done]. simpl in Hk. injection Hk as <-.
    by rewrite get_props_S, Hfail.
  - destruct k as [|k].
    + simpl in Hk. injection Hk as <-. by rewrite get_props_S, Hfail.
    + cbn [ancestors] in Hk, Hok. rewrite Hbases in Hk, Hok.
      cbn [lookup list_lookup take] in Hk, Hok.
      apply Forall_cons in Hok as [[own Hown] Hok].
      rewrite get_props_S, Hown, new_Source_component.
      rewrite Hbases, bool_decide_eq_true_2 by done.
      by rewrite (IH k Hk Hok).
Qed.

End Chain.

Lemma get_props_concatenates_chain_witness :
  get_props Sample.world 2 (new_Source Sample.world 4)
  = (Ret (concat [[mkProp "c" Sample.Var_int " desc_c"];
                  [mkProp "a" Sample.Var_int " desc_a"]]),
     new_Source Sample.world 4).
Proof.
  apply (get_props_concatenates_chain Sample.world 4 1).
  - exact Sub_inherit_depth.
  - change (ancestors Sample.world 4 1) with [1%nat].
    constructor; [vm_compute; reflexivity|].
    constructor; [vm_compute; reflexivity|constructor].
Defined.

Lemma Leaf_inherit_depth : inherit_depth Sample2.world 4 1.
Proof.
  apply (depth_step Sample2.world 4 3%nat [] 0); [reflexivity|discriminate|].
  apply (depth_root Sample2.world 3 0%nat []); reflexivity.
Defined.

Lemma ancestor_failure_propagates_witness :
  get_props Sample2.world 2 (new_Source Sample2.world 4)
  = (Raise (AssertionError "Expected comment, got tag = 1"),
     new_Source Sample2.world 4).
Proof.
  apply (ancestor_failure_propagates Sample2.world 4 1 1 3).
  - exact Leaf_inherit_depth.
  - reflexivity.
  - change (take 1 (4%nat :: ancestors Sample2.world 4 1)) with [4%nat].
    constructor; [|constructor].
    exists [mkProp "c" Sample.Var_int " The c."]. vm_compute. reflexivity.
  - vm_compute. reflexivity.
Defined.

(** ** The cells of a prop *)

Section Cells.

Lemma TYPE_COLORS_in_palette n color :
  TYPE_COLORS !! n = Some color → color ∈ palette.
Proof.
  unfold TYPE_COLORS. intros H. apply elem_of_list_to_map_2 in H.
  unfold palette.
  repeat (apply elem_of_cons in H as [[= _ <-]|H]; [repeat constructor|]).
  by apply elem_of_nil in H.
Qed.

(** The outcomes of [prop_docs], by cases. *)
Lemma prop_docs_cases prop :
  (ty_is_var (type_ prop) = true ∧ ty_args (type_ prop) = []
   ∧ prop_docs prop = ([], Raise IndexError))
  ∨ (∃ printed label color,
       prop_docs prop
       = (printed,
          Ret [rx_td (rx_code (name prop) "#333");
               rx_td (rx_badge label color "solid");
               rx_td (markdown_memo (description prop))])
       ∧ color ∈ palette
       ∧ ((printed = [] ∧ ∃ n, label = VStr n)
          ∨ ∃ ty, printed = [ty_repr ty] ∧ label = VType ty
                  ∧ ty_name ty = None ∧ color = "gray")).
Proof.
  unfold prop_docs.
  assert (Hcases :
    (ty_is_var (type_ prop) = true ∧ ty_args (type_ prop) = []
     ∧ (if ty_is_var (type_ prop)
        then list_getitem (ty_args (type_ prop)) 0
        else Some (type_ prop)) = None)
    ∨ ∃ ty, (if ty_is_var (type_ prop)
             then list_getitem (ty_args (type_ prop)) 0
             else Some (type_ prop)) = Some ty).
  { destruct (ty_is_var (type_ prop)); [|right; eauto].
    destruct (ty_args (type_ prop)) as [|ty tys]; [by left|right; eauto]. }
  destruct Hcases as [(Hv & Ha & ->)|[ty ->]]; [by left|right].
  destruct (ty_name ty) as [n|] eqn:Hn.
  - exists [], (VStr n), (default "gray" (TYPE_COLORS !! n)).
    split; [done|]. split; [|left; eauto].
    destruct (TYPE_COLORS !! n) as [color|] eqn:Hc;
      [by eapply TYPE_COLORS_in_palette|].
    unfold palette. set_solver.
  - exists [ty_repr ty], (VType ty), "gray".
    split; [done|]. split; [unfold palette; set_solver|]. right. eauto.
Qed.

(** X10. [prop_docs] fails in one case only, an [rx.Var] type without type
    argument, with an index error and nothing printed.  Otherwise it
    returns exactly three cells: the prop's name, a badge, and the prop's
    description; the badge's colour is one of the eight of the palette; and
    something is printed only for a type object without name, which is then
    the label of a gray badge. *)
Theorem prop_docs_outcome prop :
  (ty_is_var (type_ prop) = true ∧ ty_args (type_ prop) = []
   ∧ prop_docs prop = ([], Raise IndexError))
  ∨ (∃ printed label color,
       prop_docs prop
       = (printed,
          Ret [rx_td (rx_code (name prop) "#333");
               rx_td (rx_badge label color "solid");
               rx_td (markdown_memo (description prop))])
       ∧ color ∈ palette
       ∧ ((printed = [] ∧ ∃ n, label = VStr n)
          ∨ ∃ ty, printed = [ty_repr ty] ∧ label = VType ty
                  ∧ ty_name ty = None ∧ color = "gray")).
Proof. apply prop_docs_cases. Qed.

(** X11. One level of [rx.Var] is looked through: a prop of type [Var] with
    first type argument [a], itself no [Var], is displayed as a prop of type
    [a]. *)
Theorem prop_docs_looks_through_Var prop_name ty a others descr :
  ty_is_var ty = true →
  ty_args ty = a :: others →
  ty_is_var a = false →
  prop_docs (mkProp prop_name ty descr) = prop_docs (mkProp prop_name a descr).
Proof.
  intros Hv Ha Hna. unfold prop_docs. cbn [type_ name description].
  by rewrite Hv, Ha, Hna.
Qed.

End Cells.

Lemma prop_docs_looks_through_Var_witness :
  prop_docs (mkProp "size" Sample.Var_int "The size.")
  = prop_docs (mkProp "size" Sample.int_ "The size.").
Proof.
  apply (prop_docs_looks_through_Var "size" Sample.Var_int Sample.int_ []);
    reflexivity.
Defined.

(** ** The documentation page *)

Example Plain_page :
  component_docs SamplePage.reflect 1 7
  = ([],
     Ret (El "rx.box"
            [El "docheader" [Txt "Plain"] [];
             El "markdown_memo" [] [("content", AStr "A plain component.")];
             El "rx.divider" [] [];
             El "rx.box"
               [El "rx.unordered_list"
                  [El "rx.list_item" [heading_1em "No props for Plain."] []]
                  []]
               [("padding_x", AStr "1.5em"); ("max_width", AStr "100%");
                ("overflow_x", AStr "auto")];
             El "rx.box"
               [El "rx.box"
                  [El "rx.unordered_list"
                     [El "rx.list_item" [heading_1em "Base Event Triggers"] []]
                     []]
                  [("padding_top", AStr "1.5em"); ("padding_x", AStr "1.5em");
                   ("max_width", AStr "100%"); ("overflow_x", AStr "auto")]]
               [("max_width", AStr "100%"); ("overflow_x", AStr "auto")]]
            [("text_align", AStr "left")])).
Proof. vm_compute. reflexivity. Qed.

Example Foo_page_codes :
  match component_docs SamplePage.reflect 1 1 with
  | (printed, Ret page) => Some (printed, texts_under "rx.code" page)
  | _ => None
  end
  = Some ([], ["a"; "on_change"; "on_submit"]).
Proof. vm_compute. reflexivity. Qed.

Example Sub_page_fails :
  component_docs SamplePage.reflect 2 4 = ([], Raise (KeyError "on_swipe")).
Proof. vm_compute. reflexivity. Qed.

Example Loose_page_fails :
  component_docs SamplePage.reflect 1 8 = ([], Raise IndexError).
Proof. vm_compute. reflexivity. Qed.

Example Bare_page_fails :
  component_docs SamplePage.reflect 1 3
  = ([], Raise (AssertionError "Expected comment, got tag = 1")).
Proof. vm_compute. reflexivity. Qed.

Section Page.

Lemma foldl_collect {A} (f : A → bool) (l : list A) :
  ∀ acc,
    foldl (λ trig event, if f event then trig ++ [event] else trig) acc l
    = acc ++ List.filter f l.
Proof.
  induction l as [|x l IH]; intros acc; simpl; [by rewrite app_nil_r|].
  rewrite IH. destruct (f x); [|done]. by rewrite <- app_assoc.
Qed.

(** Every entry of [EVENTS] has a description. *)
Lemma EVENTS_entries_described event entry :
  EVENTS !! event = Some entry → ∃ descr, entry !! "description" = Some descr.
Proof.
  assert (Hall : map_Forall (λ _ e, is_Some (e !! "description")) EVENTS).
  { apply (bool_decide_unpack _). vm_compute. exact I. }
  intros H. exact (Hall event entry H).
Qed.

Lemma described_iff event : described event ↔ is_Some (EVENTS !! event).
Proof.
  split.
  - intros (entry & descr & Hentry & _). exists entry. exact Hentry.
  - intros [entry Hentry].
    destruct (EVENTS_entries_described _ _ Hentry) as [descr Hdescr].
    exists entry, descr. split; assumption.
Qed.

(** The row of one prop. *)
Lemma row_of_displayable prop :
  displayable prop →
  ∃ cells,
    prop_docs prop = (fst (prop_docs prop), Ret cells)
    ∧ texts_under "rx.code" (El "rx.tr" (map node_of_ui cells) [])
      = [name prop].
Proof.
  intros Hd.
  destruct (prop_docs_cases prop)
    as [(Hv & Ha & _)|(printed & label & color & Hp & _)].
  - by destruct Hd.
  - rewrite Hp. eexists. split; [done|]. by destruct label.
Qed.

Lemma rows_of_displayable props :
  Forall displayable props →
  ∃ rows,
    print_map
      (λ prop,
         let+ cells := prop_docs prop in
         print_ret (El "rx.tr" (map node_of_ui cells) []))
      props
    = (concat (map (λ p, fst (prop_docs p)) props), Ret rows)
    ∧ flat_map (texts_under "rx.code") rows = map name props.
Proof.
  induction 1 as [|prop props Hd _ (rows & Hrows & Hcodes)].
  - by exists [].
  - destruct (row_of_displayable prop Hd) as (cells & Hcells & Hrow).
    exists (El "rx.tr" (map node_of_ui cells) [] :: rows).
    split.
    + cbn [print_map]. rewrite Hrows, Hcells. cbn [fst].
      unfold print_bind, print_ret. cbn [concat map fst].
      by rewrite !app_nil_r.
    + cbn [flat_map map]. by rewrite Hrow, Hcodes.
Qed.

(** The rows stop at the first prop whose type cannot be displayed. *)
Lemma rows_fail_at props prop rest :
  Forall displayable props →
  ¬ displayable prop →
  print_map
    (λ prop,
       let+ cells := prop_docs prop in
       print_ret (El "rx.tr" (map node_of_ui cells) []))
    (props ++ prop :: rest)
  = (concat (map (λ p, fst (prop_docs p)) props), Raise IndexError).
Proof.
  intros Hok Hbad. induction Hok as [|p props Hd _ IH].
  - cbn [app print_map].
    destruct (prop_docs_cases prop)
      as [(_ & _ & ->)|(printed & label & color & Hp & _)]; [done|].
    exfalso. apply Hbad. intros [Hv Ha]. revert Hp. unfold prop_docs.
    by rewrite Hv, Ha.
  - destruct (row_of_displayable p Hd) as (cells & Hcells & _).
    cbn [app print_map]. rewrite IH, Hcells. cbn [fst].
    unfold print_bind, print_ret. cbn [concat map fst].
    by rewrite app_nil_r.
Qed.

Lemma items_of_described events :
  Forall described events →
  ∃ items,
    print_map
      (λ event,
         let+ entry := lookup_or_KeyError EVENTS event in
         let+ descr := lookup_or_KeyError entry "description" in
         print_ret
           (El "rx.accordion_item"
              [El "rx.accordion_button"
                 [El "rx.accordion_icon" [] [];
                  El "rx.code" [Txt event] []] [];
               El "rx.accordion_panel"
                 [El "rx.text" [Txt descr] []] []] []))
      events
    = ([], Ret items)
    ∧ flat_map (texts_under "rx.code") items = events.
Proof.
  induction 1 as [|event events (entry & descr & He & Hd) _
                    (items & Hitems & Hcodes)].
  - by exists [].
  - eexists (_ :: items). split.
    + cbn [print_map]. rewrite Hitems. unfold lookup_or_KeyError.
      rewrite He. unfold print_bind at 1 2. cbn [print_ret]. rewrite Hd.
      reflexivity.
    + cbn [flat_map]. by rewrite Hcodes.
Qed.

Lemma items_fail_at events event rest :
  Forall described events →
  EVENTS !! event = None →
  print_map
    (λ event,
       let+ entry := lookup_or_KeyError EVENTS event in
       let+ descr := lookup_or_KeyError entry "description" in
       print_ret
         (El "rx.accordion_item"
            [El "rx.accordion_button"
               [El "rx.accordion_icon" [] [];
                El "rx.code" [Txt event] []] [];
             El "rx.accordion_panel"
               [El "rx.text" [Txt descr] []] []] []))
    (events ++ event :: rest)
  = ([], Raise (KeyError event)).
Proof.
  intros Hok Hnone. induction Hok as [|ev events (entry & descr & He & Hd) _ IH].
  - cbn [app print_map]. unfold lookup_or_KeyError. by rewrite Hnone.
  - cbn [app print_map]. rewrite IH. unfold lookup_or_KeyError.
    rewrite He. unfold print_bind at 1 2. cbn [print_ret]. by rewrite Hd.
Qed.

End Page.

Ltac described_by_lookup :=
  apply described_iff; vm_compute; eexists; reflexivity.

Ltac eval_tags :=
  repeat match goal with
         | |- context [bool_decide (?a = ?b)] =>
             let v := eval vm_compute in (bool_decide (a = b)) in
             change (bool_decide (a = b)) with v
         end.

Section PageOutcome.

Context (R : Reflect) (fuel : nat) (cls : class_id).

Local Abbreviation src := (new_Source (world_of R) cls).

(** X12. When [get_props] returns for the class, every returned prop has a
    type that can be displayed and every trigger specific to the component
    is described in [EVENTS], [component_docs] returns a page; what it
    prints is what [prop_docs] prints for the props, in order; and the page
    names, in its [rx.code] elements, exactly the props, in order, followed
    by the triggers of the component that are neither default triggers nor
    [on_drop]. *)
Theorem component_docs_page props :
  fst (get_props (world_of R) fuel src) = Ret props →
  Forall displayable props →
  Forall described (specific_triggers R cls) →
  ∃ page,
    component_docs R fuel cls
    = (concat (map (λ p, fst (prop_docs p)) props), Ret page)
    ∧ texts_under "rx.code" page = map name props ++ specific_triggers R cls.
Proof.
  intros Hget Hdisp Hdesc.
  destruct (rows_of_displayable props Hdisp) as (rows & Hrows & Hrc).
  destruct (items_of_described _ Hdesc) as (items & Hitems & Hic).
  unfold specific_triggers in *.
  unfold component_docs.
  rewrite (get_props_run (world_of R) fuel src), Hget.
  rewrite foldl_collect. cbn [app print_bind].
  rewrite (get_props_run (world_of R) fuel src), Hget.
  rewrite Hrows, Hitems.
  destruct props as [|p ps];
    destruct (List.filter (is_specific_trigger R) (cls_event_triggers R cls))
      as [|ev evs].
  - eexists; split; [reflexivity|]. cbn. eval_tags. reflexivity.
  - eexists; split; [reflexivity|]. cbn. eval_tags. cbn [app].
    by rewrite !app_nil_r.
  - change ((0 <? Z.of_nat (length (p :: ps)))%Z) with true. cbv iota.
    eexists; split; [cbn; rewrite ?app_nil_r; reflexivity|].
    cbn. eval_tags. cbn [app]. by rewrite !app_nil_r, Hrc.
  - change ((0 <? Z.of_nat (length (p :: ps)))%Z) with true. cbv iota.
    eexists; split; [cbn; rewrite ?app_nil_r; reflexivity|].
    cbn. eval_tags. cbn [app]. by rewrite !app_nil_r, Hrc, Hic.
Qed.

(** X13. [component_docs] gives no page when the props cannot be shown: an
    exception of [get_props] is raised again, with nothing printed; and at
    the first returned prop whose type is an [rx.Var] without type argument
    the index error of [prop_docs] is raised, after what was printed for the
    props before it. *)
Theorem component_docs_props_failures :
  (∀ e,
     fst (get_props (world_of R) fuel src) = Raise e →
     component_docs R fuel cls = ([], Raise e))
  ∧ (∀ shown prop rest,
       fst (get_props (world_of R) fuel src) = Ret (shown ++ prop :: rest) →
       Forall displayable shown →
       ¬ displayable prop →
       component_docs R fuel cls
       = (concat (map (λ p, fst (prop_docs p)) shown), Raise IndexError)).
Proof.
  split.
  - intros e Hget. unfold component_docs.
    by rewrite (get_props_run (world_of R) fuel src), Hget.
  - intros shown prop rest Hget Hok Hbad. unfold component_docs.
    rewrite (get_props_run (world_of R) fuel src), Hget.
    cbn [app print_bind].
    rewrite (get_props_run (world_of R) fuel src), Hget.
    rewrite (rows_fail_at shown prop rest Hok Hbad).
    replace (0 <? Z.of_nat (length (shown ++ prop :: rest)))%Z with true
      by (symmetry; apply Z.ltb_lt; rewrite length_app; simpl; lia).
    cbn [print_bind app]. by rewrite ?app_nil_r.
Qed.

(** X14. When the props are shown but a trigger specific to the component
    has no entry in [EVENTS], [component_docs] raises the key error of the
    first such trigger, after the props have been printed: no page comes
    out. *)
Theorem component_docs_undescribed_trigger props listed event rest :
  fst (get_props (world_of R) fuel src) = Ret props →
  Forall displayable props →
  specific_triggers R cls = listed ++ event :: rest →
  Forall described listed →
  EVENTS !! event = None →
  component_docs R fuel cls
  = (concat (map (λ p, fst (prop_docs p)) props), Raise (KeyError event)).
Proof.
  intros Hget Hdisp Hspec Hok Hnone.
  destruct (rows_of_displayable props Hdisp) as (rows & Hrows & _).
  unfold specific_triggers in Hspec. unfold component_docs.
  rewrite (get_props_run (world_of R) fuel src), Hget.
  rewrite foldl_collect. cbn [app print_bind].
  rewrite (get_props_run (world_of R) fuel src), Hget.
  rewrite Hrows, Hspec, (items_fail_at listed event rest Hok Hnone).
  rewrite bool_decide_eq_false_2 by (by destruct listed).
  destruct props as [|p ps].
  - cbn. reflexivity.
  - change ((0 <? Z.of_nat (length (p :: ps)))%Z) with true. cbv iota.
    cbn. by rewrite ?app_nil_r.
Qed.

End PageOutcome.

Lemma Var_int_displayable :
  displayable (mkProp "a" Sample.Var_int " desc_a").
Proof. intros [_ Hargs]. discriminate Hargs. Defined.

Lemma component_docs_page_witness :
  ∃ page,
    component_docs SamplePage.reflect 1 1 = ([], Ret page)
    ∧ texts_under "rx.code" page = ["a"; "on_change"; "on_submit"].
Proof.
  apply (component_docs_page SamplePage.reflect 1 1
           [mkProp "a" Sample.Var_int " desc_a"]).
  - vm_compute. reflexivity.
  - constructor; [exact Var_int_displayable|constructor].
  - change (specific_triggers SamplePage.reflect 1)
      with ["on_change"; "on_submit"].
    apply Forall_cons; split; [described_by_lookup|].
    apply Forall_cons; split; [described_by_lookup|constructor].
Defined.

Lemma component_docs_props_failures_witness :
  component_docs SamplePage.reflect 1 3
  = ([], Raise (AssertionError "Expected comment, got tag = 1"))
  ∧ component_docs SamplePage.reflect 1 8 = ([], Raise IndexError).
Proof.
  split.
  - apply (proj1 (component_docs_props_failures SamplePage.reflect 1 3)).
    vm_compute. reflexivity.
  - apply (proj2 (component_docs_props_failures SamplePage.reflect 1 8)
             [] (mkProp "value" SamplePage.Var_bare " The value.") []).
    + vm_compute. reflexivity.
    + constructor.
    + intros Hd. apply Hd. split; reflexivity.
Defined.

Lemma component_docs_undescribed_trigger_witness :
  component_docs SamplePage.reflect 2 4 = ([], Raise (KeyError "on_swipe")).
Proof.
  apply (component_docs_undescribed_trigger SamplePage.reflect 2 4
           [mkProp "c" Sample.Var_int " desc_c";
            mkProp "a" Sample.Var_int " desc_a"]
           ["on_change"] "on_swipe" []).
  - vm_compute. reflexivity.
  - repeat constructor; intros [_ Hargs]; discriminate Hargs.
  - vm_compute. reflexivity.
  - apply Forall_cons; split; [described_by_lookup|constructor].
  - vm_compute. reflexivity.
Defined.

(** ** The names that come out *)

Section Names.

Context (W : World) (self : Source).

Lemma scan_names lines :
  ∀ i comments out r,
    fst (for_each (scan_line W (own_props W self))
           (enumerate_from i lines) (comments, out) self) = Ret r →
    map name (snd (flow_state r))
    = map name out
      ++ omap (matched_prop (own_props W self)) (before_def lines).
Proof.
  induction lines as [|line lines IH]; intros i comments out r; simpl.
  - intros [= <-]. simpl. by rewrite app_nil_r.
  - unfold bind. rewrite scan_line_eq.
    destruct (is_def_line line) eqn:Hd.
    { intros [= <-]. simpl. by rewrite app_nil_r. }
    cbn [omap list_omap].
    destruct (is_comment_line line) eqn:Hc.
    { rewrite (matched_prop_comment _ _ Hc). apply IH. }
    destruct (matched_prop _ line) as [prop|]; [|apply IH].
    destruct (list_getitem _ _) as [above|]; [|done].
    destruct (is_comment_line above); [|done].
    destruct (own_fields W self !! prop) as [ty|]; [|done].
    intros Hr. rewrite (IH _ _ _ _ Hr), map_app. simpl.
    by rewrite <- app_assoc.
Qed.

(** X15. When [_get_props] returns, its records are for the lines before
    the first method line that are matched to a declared prop, one record
    for each such line, in the order of the lines. *)
Theorem documented_names_in_order out :
  fst (_get_props W self) = Ret out →
  map name out
  = omap (matched_prop (own_props W self)) (before_def (code self)).
Proof.
  rewrite _get_props_loop_result. cbn [fst].
  destruct (fst _) as [r|e|] eqn:Hscan; [|done..].
  intros [= <-]. by rewrite (scan_names _ _ _ _ _ Hscan).
Qed.

End Names.

Lemma documented_names_in_order_witness :
  map name [mkProp "a" Sample.Var_int " The tag. first second"]
  = omap (matched_prop (own_props Sample.world (new_Source Sample.world 2)))
      (before_def (code (new_Source Sample.world 2))).
Proof.
  apply (documented_names_in_order Sample.world (new_Source Sample.world 2)).
  vm_compute. reflexivity.
Defined.

(** ** A class with one documented prop *)

Section OneProp.

Lemma rstrip_by_rest f s :
  ∃ w, s = PyStr.rstrip_by f s +:+ w ∧ all_chars f w = true.
Proof.
  induction s as [|c s (w & Hs & Hw)]; [by exists ""|].
  cbn [PyStr.rstrip_by]. destruct (PyStr.rstrip_by f s) as [|c' r].
  - change ("" +:+ w) with w in Hs. subst s.
    destruct (f c) eqn:Hc.
    + exists (String c w). split; [done|]. simpl. by rewrite Hc.
    + by exists w.
  - exists w. split; [|done]. rewrite (string_app_cons c (String c' r)).
    by rewrite <- Hs.
Qed.

Lemma whitespace_is_no_def_line w :
  all_chars PyStr.is_space w = true → is_def_line w = false.
Proof.
  induction w as [|c w IH]; [done|]. simpl all_chars.
  intros [Hc Hw]%andb_true_iff.
  unfold is_def_line in *. cbn [Re.search_literal PyStr.startswith].
  rewrite (bool_decide_eq_false_2 _ (space_is_no_d c Hc)). by apply IH.
Qed.

(** The comment line [# desc_a], however it is indented and whatever
    whitespace follows it. *)
Lemma desc_a_comment_line comment :
  PyStr.strip comment = "# desc_a" →
  is_def_line comment = false
  ∧ is_comment_line comment = true
  ∧ get_comment [comment] = " desc_a".
Proof.
  intros Hstrip. split; [|split].
  - rewrite is_def_line_lstrip.
    destruct (rstrip_by_rest PyStr.is_space
                (PyStr.lstrip_by PyStr.is_space comment)) as (w & Hs & Hw).
    unfold PyStr.strip, PyStr.strip_by in Hstrip. rewrite Hstrip in Hs.
    rewrite Hs.
    change (is_def_line ("# desc_a" +:+ w)) with (is_def_line w).
    by apply whitespace_is_no_def_line.
  - unfold is_comment_line. by rewrite Hstrip.
  - unfold get_comment. simpl. by rewrite Hstrip.
Qed.

(** A declaration of a field that is no declared prop is passed over. *)
Lemma undeclared_field_line props line group0 :
  Re.search_word_colon line = Some group0 →
  PyStr.strip_chars ":" group0 ∉ props →
  matched_prop props line = None.
Proof.
  intros Hs Hnot. unfold matched_prop. rewrite Hs.
  rewrite (bool_decide_eq_false_2 _ Hnot). by repeat case_match.
Qed.

Context (W : World) (self : Source).

Lemma scans_passed_over block :
  ∀ pre rest st,
    code self = pre ++ block ++ rest →
    Forall (passed_over (own_props W self)) block →
    scans_to W self (length pre) st →
    scans_to W self (length pre + length block) st.
Proof.
  induction block as [|line block IH]; intros pre rest st Hcode Hall Hpre.
  - by rewrite Nat.add_0_r.
  - apply Forall_cons in Hall as [(Hd & Hc & Hm) Hall].
    assert (Hline : code self !! length pre = Some line).
    { rewrite Hcode. rewrite lookup_app_r by lia. by rewrite Nat.sub_diag. }
    pose proof (scans_to_S W self _ _ _ _ Hpre Hline
                  (scan_line_skipped W self _ _ _ Hd Hc Hm)) as Hnext.
    replace (length pre + length (line :: block))%nat
      with (length (pre ++ [line]) + length block)%nat
      by (rewrite length_app; simpl; lia).
    apply (IH (pre ++ [line]) rest); [by rewrite <- app_assoc | done |].
    rewrite length_app. simpl. by rewrite Nat.add_1_r.
Qed.

(** C1, as the code has it. Take a class whose stored lines are: first
    lines that the scan passes over (such as the class header), no comment
    among them; then the comment line [# desc_a]; then a line declaring [a],
    a declared prop; then lines of which none, before the first method line,
    is matched to a declared prop (such as the declaration of a field [b]
    that is no declared prop).  Its own parse yields exactly one record, for
    [a], whose description is [" desc_a"]: the comment without its '#', with
    the space that follows it.  [get_props] returns exactly that record
    when the first base class is the root component class, and otherwise
    that record followed by the records of the first base class. *)
Theorem single_documented_prop pre comment aline post ty :
  code self = pre ++ comment :: aline :: post →
  Forall (passed_over (own_props W self)) pre →
  PyStr.strip comment = "# desc_a" →
  matched_prop (own_props W self) aline = Some "a" →
  own_fields W self !! "a" = Some ty →
  Forall (λ l, matched_prop (own_props W self) l = None) (before_def post) →
  _get_props W self = (Ret [mkProp "a" ty " desc_a"], self)
  ∧ (∀ bases fuel,
       cls_bases (classes W (component self)) = rx_Component W :: bases →
       get_props W (S fuel) self = (Ret [mkProp "a" ty " desc_a"], self))
  ∧ (∀ parent_cls bases fuel inherited,
       cls_bases (classes W (component self)) = parent_cls :: bases →
       parent_cls ≠ rx_Component W →
       fst (get_props W fuel (new_Source W parent_cls)) = Ret inherited →
       get_props W (S fuel) self
       = (Ret (mkProp "a" ty " desc_a" :: inherited), self)).
Proof.
  intros Hcode Hpre Hstrip Hm Hty Hpost.
  destruct (desc_a_comment_line comment Hstrip) as (Hd & Hc & Hdescr).
  pose proof (scans_passed_over pre [] (comment :: aline :: post) ([], [])
                Hcode Hpre (scans_to_0 W self)) as H0.
  cbn [length Nat.add] in H0.
  assert (Hcl : code self !! (length pre) = Some comment).
  { rewrite Hcode. rewrite lookup_app_r by lia. by rewrite Nat.sub_diag. }
  assert (Hal : code self !! (S (length pre)) = Some aline).
  { rewrite Hcode. rewrite lookup_app_r by lia.
    by replace (S (length pre) - length pre)%nat with 1%nat by lia. }
  pose proof (scans_to_S W self _ _ _ _ H0 Hcl
                (scan_line_comment W self _ _ [] [] Hd Hc)) as H1.
  assert (H2 : scans_to W self (S (S (length pre)))
                 ([], [mkProp "a" ty " desc_a"])).
  { apply (scans_to_S W self _ _ _ _ H1 Hal).
    rewrite (scan_line_matched W self _ _ _ _ _ Hm).
    rewrite list_getitem_pred by lia.
    replace (S (length pre) - 1)%nat with (length pre) by lia.
    rewrite Hcl, Hc, Hty. cbn [app]. by rewrite Hdescr. }
  assert (Hown : _get_props W self = (Ret [mkProp "a" ty " desc_a"], self)).
  { apply (_get_props_returns_reached W self _ _ _ H2).
    replace (drop (S (S (length pre))) (code self)) with post; [done|].
    rewrite Hcode.
    replace (pre ++ comment :: aline :: post)
      with ((pre ++ [comment; aline]) ++ post) by (by rewrite <- app_assoc).
    rewrite drop_app_length'; [done|]. rewrite length_app. simpl. lia. }
  split; [done|]. split.
  - intros bases fuel Hbases. rewrite get_props_S, Hown. cbn [fst].
    rewrite Hbases.
    by rewrite bool_decide_eq_false_2 by (intros Hne; by apply Hne).
  - intros parent_cls bases fuel inherited Hbases Hne Hinh.
    rewrite get_props_S, Hown. cbn [fst]. rewrite Hbases, Hinh.
    by rewrite bool_decide_eq_true_2.
Qed.

End OneProp.

(** The claim's description, [desc_a], is not what comes out: in the class
    Foo the space after the '#' is kept; with a further comment line above,
    that comment is part of the description too; and for a class derived
    from a documented base class [get_props] returns the base's records as
    well. *)
Lemma description_desc_a_counterexample :
  (∃ record,
     fst (get_props Sample.world 1 (new_Source Sample.world 1)) = Ret [record]
     ∧ name record = "a"
     ∧ description record = " desc_a"
     ∧ description record ≠ "desc_a")
  ∧ fst (get_props Sample3.world 1 (new_Source Sample3.world 2))
    = Ret [mkProp "a" Sample.Var_int " --- props --- desc_a"]
  ∧ fst (get_props Sample3.world 2 (new_Source Sample3.world 4))
    = Ret [mkProp "a" Sample.Var_int " desc_a";
           mkProp "c" Sample.Var_int " desc_c"].
Proof.
  split; [|split; vm_compute; reflexivity].
  exists (mkProp "a" Sample.Var_int " desc_a").
  split; [vm_compute; reflexivity|].
  split; [reflexivity|]. split; [reflexivity|]. discriminate.
Qed.

Lemma single_documented_prop_witness :
  _get_props Sample.world (new_Source Sample.world 1)
  = (Ret [mkProp "a" Sample.Var_int " desc_a"], new_Source Sample.world 1)
  ∧ get_props Sample.world 1 (new_Source Sample.world 1)
    = (Ret [mkProp "a" Sample.Var_int " desc_a"], new_Source Sample.world 1)
  ∧ get_props Sample3.world 2 (new_Source Sample3.world 4)
    = (Ret [mkProp "a" Sample.Var_int " desc_a";
            mkProp "c" Sample.Var_int " desc_c"],
       new_Source Sample3.world 4).
Proof.
  pose proof (single_documented_prop Sample.world (new_Source Sample.world 1)
                ["class Foo(rx.Component):"] "    # desc_a" "    a: Var[int]"
                ["    b: str"] Sample.Var_int
                ltac:(vm_compute; reflexivity)
                ltac:(repeat constructor)
                ltac:(vm_compute; reflexivity)
                ltac:(vm_compute; reflexivity)
                ltac:(vm_compute; reflexivity)
                ltac:(repeat constructor)) as (Hown & Hroot & _).
  pose proof (single_documented_prop Sample3.world
                (new_Source Sample3.world 4)
                ["class Foo(Basis):"] "    # desc_a" "    a: Var[int]"
                ["    b: str"] Sample.Var_int
                ltac:(vm_compute; reflexivity)
                ltac:(repeat constructor)
                ltac:(vm_compute; reflexivity)
                ltac:(vm_compute; reflexivity)
                ltac:(vm_compute; reflexivity)
                ltac:(repeat constructor)) as (_ & _ & Hderived).
  split; [exact Hown|]. split.
  - apply (Hroot [] 0%nat). reflexivity.
  - apply (Hderived 3%nat [] 1%nat [mkProp "c" Sample.Var_int " desc_c"]).
    + reflexivity.
    + discriminate.
    + vm_compute. reflexivity.
Defined.
